(** * weather_datadog: a shallow embedding of [src/weather_datadog.py]

    The service polls OpenWeather for one ZIP code and republishes the
    temperature and the humidity as Datadog gauges, every 300 seconds, until
    SIGINT or SIGTERM asks it to stop.

    The Python code is embedded as functions in a state-and-exception monad
    over a [world]: the wall clock, the module-level [shutdown_flag], the
    signals still to be delivered and the trace of the effects performed so
    far.  What the network answers is not decided by the program; it is a
    [network] oracle, quantified over in every theorem. *)

From Stdlib Require Import ZArith List Lia PrimFloat.
From stdpp Require Import gmap strings list fin_maps.

Set Warnings "-register-all".

Local Open Scope Z_scope.

(** ** Python values, as [response.json()] produces them *)

Inductive pyval :=
| PNone
| PBool (b : bool)
| PInt (z : Z)
| PFloat (f : float)
| PStr (s : string)
| PList (l : list pyval)
| PDict (d : gmap string pyval).

(** Truth value of an object, as [if weather_data:] tests it. *)
Definition truthy (v : pyval) : bool :=
  match v with
  | PNone => false
  | PBool b => b
  | PInt z => negb (z =? 0)
  | PFloat f => negb (PrimFloat.eqb f 0%float)
  | PStr s => negb (String.eqb s EmptyString)
  | PList l => negb (Nat.eqb (length l) 0)
  | PDict d => negb (Nat.eqb (size d) 0)
  end.

(** ** Exceptions *)

(** What [requests.get] itself can raise. *)
Inductive transport_error := ConnectionError | Timeout | TooManyRedirects.

(** The subclasses of [requests.exceptions.RequestException] met here:
    transport failures, [HTTPError] from [raise_for_status] and
    [JSONDecodeError] from [response.json()]. *)
Inductive request_error :=
| Transport (t : transport_error)
| HTTPError (status : Z)
| JSONDecodeError.

(** Subclasses of [Exception]. *)
Inductive exception :=
| RequestException (r : request_error)
| KeyError (key : string)
| TypeError (msg : string)
| OtherError (name : string).

(** [BaseException]: [sys.exit] raises [SystemExit], which is not an
    [Exception]. *)
Inductive exn :=
| Exc (e : exception)
| SystemExit (code : Z).

(** ** Effects *)

Inductive log_level := INFO | WARNING | ERROR.

(** A log record keeps the f-string of the source and the values it
    interpolates; the rendering of the values is left to the logger. *)
Inductive fmt_arg :=
| FStr (s : string)
| FVal (v : pyval)
| FExn (e : exn).

Inductive signal_name := SIGINT | SIGTERM.

Inductive event :=
| ELog (lvl : log_level) (fmt : string) (args : list fmt_arg)
| ESignal (sig : signal_name)
| EHttpGet (url : string) (params : list (string * string)) (timeout : Z)
| EInitialize (api_key app_key : string)
| EMetricSend (metric : string) (points : list (Z * pyval)) (type : string)
| ESleep (secs : Z).

(** The state the program runs in.  [now] is the wall clock in
    milliseconds since the epoch; [pending] holds the instants at which a
    SIGINT or SIGTERM will arrive; [gets] and [sends] count the calls made to
    [requests.get] and to [api.Metric.send]. *)
Record world := World {
  now : Z;
  shutdown_flag : bool;
  pending : list Z;
  gets : nat;
  sends : nat;
  trace : list event
}.

(** An HTTP response: its status code and what [response.json()] decodes,
    [None] when the body is not JSON. *)
Record response := Response {
  status_code : Z;
  json_body : option pyval
}.

Inductive http_result :=
| GetRaises (t : transport_error)
| GetResponse (r : response).

(** The outside world: the duration (milliseconds) and the outcome of the
    k-th [requests.get] and of the k-th [api.Metric.send]. *)
Record network := Network {
  http_reply : nat -> N * http_result;
  send_reply : nat -> N * option exception
}.

(** ** The monad *)

Inductive result (A : Type) :=
| Return (a : A) (w : world)
| Raise (e : exn) (w : world).
Arguments Return {A} a w.
Arguments Raise {A} e w.

Definition M (A : Type) : Type := world -> result A.

Definition ret {A} (a : A) : M A := fun w => Return a w.

Definition bind {A B} (m : M A) (k : A -> M B) : M B :=
  fun w => match m w with
           | Return a w' => k a w'
           | Raise e w' => Raise e w'
           end.

Definition raise {A} (e : exn) : M A := fun w => Raise e w.

(** [try: body except ...]: [handler e] is the clause that matches [e], if
    one does. *)
Definition try_except {A} (body : M A) (handler : exn -> option (M A)) : M A :=
  fun w => match body w with
           | Return a w' => Return a w'
           | Raise e w' =>
               match handler e with
               | Some h => h w'
               | None => Raise e w'
               end
           end.

Notation "x <- m ;; k" := (bind m (fun x => k))
  (at level 100, m at next level, right associativity).
Notation "m ;; k" := (bind m (fun _ => k))
  (at level 100, right associativity).

Definition world_of {A} (r : result A) : world :=
  match r with Return _ w => w | Raise _ w => w end.

(** ** Primitive effects *)

Definition emit (e : event) (w : world) : world :=
  World (now w) (shutdown_flag w) (pending w) (gets w) (sends w) (trace w ++ [e]).

Definition log (lvl : log_level) (fmt : string) (args : list fmt_arg) : M unit :=
  fun w => Return tt (emit (ELog lvl fmt args) w).

(** [signal_handler(signum, frame)] *)
Definition signal_handler (w : world) : world :=
  let w := emit (ELog INFO "Received shutdown signal, stopping..." []) w in
  World (now w) true (pending w) (gets w) (sends w) (trace w).

(** The signals of [l] that have arrived by the instant [t], and those
    still to come. *)
Definition due_by (t : Z) (l : list Z) : list Z :=
  List.filter (fun s => s <=? t) l.

Definition later_than (t : Z) (l : list Z) : list Z :=
  List.filter (fun s => negb (s <=? t)) l.

(** The clock moves only while the program blocks (in [requests.get], in
    [api.Metric.send], in [time.sleep]).  A signal that falls due while it
    blocks runs the handler; the blocking call then resumes and completes. *)
Definition advance (d : Z) (w : world) : world :=
  fold_right (fun _ w' => signal_handler w')
    (World (now w + d) (shutdown_flag w) (later_than (now w + d) (pending w))
       (gets w) (sends w) (trace w))
    (due_by (now w + d) (pending w)).

(** [time.sleep(secs)] *)
Definition sleep (secs : Z) : M unit :=
  fun w => Return tt (advance (1000 * secs) (emit (ESleep secs) w)).

(** [int(time.time())]: truncation to whole seconds. *)
Definition int_time : M Z := fun w => Return (now w ÷ 1000) w.

Section Program.

Variable net : network.

(** [requests.get(url, params=params, timeout=timeout)] *)
Definition requests_get (url : string) (params : list (string * string))
    (timeout : Z) : M response :=
  fun w =>
    let '(d, out) := http_reply net (gets w) in
    let w1 := emit (EHttpGet url params timeout)
                (World (now w) (shutdown_flag w) (pending w) (S (gets w)) (sends w) (trace w)) in
    let w2 := advance (Z.of_N d) w1 in
    match out with
    | GetRaises t => Raise (Exc (RequestException (Transport t))) w2
    | GetResponse r => Return r w2
    end.

(** [Response.raise_for_status] of requests: a client error is a status in
    400..499, a server error one in 500..599; nothing else raises. *)
Definition is_error_status (s : Z) : bool :=
  ((400 <=? s) && (s <? 500)) || ((500 <=? s) && (s <? 600)).

Definition raise_for_status (r : response) : M unit :=
  if is_error_status (status_code r)
  then raise (Exc (RequestException (HTTPError (status_code r))))
  else ret tt.

(** [response.json()]: on a body that is not JSON, requests (2.27 and
    later) raises its own [JSONDecodeError], a [RequestException]. *)
Definition response_json (r : response) : M pyval :=
  match json_body r with
  | Some v => ret v
  | None => raise (Exc (RequestException JSONDecodeError))
  end.

(** [obj[key]] with a [str] key: only a dict can be indexed by a string. *)
Definition subscript (obj : pyval) (key : string) : M pyval :=
  match obj with
  | PDict d =>
      match d !! key with
      | Some v => ret v
      | None => raise (Exc (KeyError key))
      end
  | PList _ => raise (Exc (TypeError "list indices must be integers or slices, not str"))
  | PStr _ => raise (Exc (TypeError "string indices must be integers, not 'str'"))
  | PNone | PBool _ | PInt _ | PFloat _ =>
      raise (Exc (TypeError "object is not subscriptable"))
  end.

(** [api.Metric.send(metric=..., points=..., type=...)] *)
Definition metric_send (metric : string) (points : list (Z * pyval))
    (type : string) : M unit :=
  fun w =>
    let '(d, out) := send_reply net (sends w) in
    let w1 := emit (EMetricSend metric points type)
                (World (now w) (shutdown_flag w) (pending w) (gets w) (S (sends w)) (trace w)) in
    let w2 := advance (Z.of_N d) w1 in
    match out with
    | Some e => Raise (Exc e) w2
    | None => Return tt w2
    end.

(** ** [get_weather_data] *)

Definition reading (temperature humidity : pyval) : pyval :=
  PDict (<["temperature" := temperature]> (<["humidity" := humidity]> ∅)).

Definition get_weather_data (zip_code api_key : string) : M pyval :=
  let url := "https://api.openweathermap.org/data/2.5/weather" in
  let params := [("zip", zip_code); ("appid", api_key); ("units", "metric")] in
  try_except
    (log INFO "Fetching weather data for ZIP code: {zip_code}" [FStr zip_code] ;;
     response <- requests_get url params 10 ;;
     raise_for_status response ;;
     data <- response_json response ;;
     main_t <- subscript data "main" ;;
     temperature <- subscript main_t "temp" ;;
     main_h <- subscript data "main" ;;
     humidity <- subscript main_h "humidity" ;;
     log INFO "Received weather data - Temperature: {temperature}°F, Humidity: {humidity}%"
         [FVal temperature; FVal humidity] ;;
     ret (reading temperature humidity))
    (fun e =>
       match e with
       | Exc (RequestException _) =>
           Some (log ERROR "Error fetching weather data: {e}" [FExn e] ;; ret PNone)
       | Exc (KeyError _) =>
           Some (log ERROR "Unexpected response format from OpenWeather API: {e}" [FExn e] ;;
                 ret PNone)
       | _ => None
       end).

(** ** [submit_datadog_metrics] *)

Definition submit_datadog_metrics (temperature humidity : pyval)
    (api_key app_key : string) : M unit :=
  try_except
    (ts <- int_time ;;
     metric_send "environment.temperature.outside" [(ts, temperature)] "gauge" ;;
     log INFO "Submitted metric: environment.temperature.outside = {temperature}°F"
         [FVal temperature] ;;
     ts' <- int_time ;;
     metric_send "environment.humidity.outside" [(ts', humidity)] "gauge" ;;
     log INFO "Submitted metric: environment.humidity.outside = {humidity}%"
         [FVal humidity])
    (fun e =>
       match e with
       | Exc _ => Some (log ERROR "Error submitting metrics to Datadog: {e}" [FExn e])
       | SystemExit _ => None
       end).

(** ** [main] *)

(** [for _ in range(n): if shutdown_flag: break; time.sleep(1)] *)
Fixpoint sleep_segments (n : nat) : M unit :=
  fun w =>
    match n with
    | O => Return tt w
    | S n' =>
        if shutdown_flag w then Return tt w
        else (sleep 1 ;; sleep_segments n') w
    end.

(** Lines 164-170: the wait between two cycles. *)
Definition wait_phase : M unit :=
  fun w =>
    if negb (shutdown_flag w)
    then (log INFO "Waiting 15 seconds until next check..." [] ;;
          sleep_segments 300) w
    else Return tt w.

(** Lines 153-162: publish the reading, or warn that there is none. *)
Definition publish_or_skip (weather_data : pyval)
    (datadog_api_key datadog_app_key : string) : M unit :=
  if truthy weather_data
  then (temperature <- subscript weather_data "temperature" ;;
        humidity <- subscript weather_data "humidity" ;;
        submit_datadog_metrics temperature humidity datadog_api_key datadog_app_key)
  else log WARNING "Skipping metric submission due to weather data fetch failure" [].

(** The four values read from the environment. *)
Record config := Config {
  openweather_api_key : string;
  datadog_api_key : string;
  datadog_app_key : string;
  zip_code : string
}.

(** One iteration of the body of [while not shutdown_flag]. *)
Definition cycle (c : config) : M unit :=
  weather_data <- get_weather_data (zip_code c) (openweather_api_key c) ;;
  publish_or_skip weather_data (datadog_api_key c) (datadog_app_key c) ;;
  wait_phase.

(** [while not shutdown_flag: ...], run for at most [fuel] iterations;
    [None] when the fuel runs out with the flag still clear. *)
Fixpoint main_loop (fuel : nat) (c : config) (w : world) : option (result unit) :=
  if shutdown_flag w then Some (Return tt w)
  else match fuel with
       | O => None
       | S fuel' =>
           match cycle c w with
           | Return _ w' => main_loop fuel' c w'
           | Raise e w' => Some (Raise e w')
           end
       end.

(** [os.getenv(name)] *)
Definition getenv (environ : gmap string string) (name : string) : option string :=
  environ !! name.

(** Truth value of what [os.getenv] returns: [None] and the empty string
    are false. *)
Definition str_truthy (value : option string) : bool :=
  match value with
  | Some s => negb (String.eqb s EmptyString)
  | None => false
  end.

(** [sys.exit(code)] *)
Definition sys_exit {A} (code : Z) : M A := raise (SystemExit code).

(** [if not value: logger.error(f"{name} environment variable is
    required"); sys.exit(1)]; past the test the value is a non-empty string. *)
Definition require_env (name : string) (value : option string) : M string :=
  match value with
  | Some s =>
      if str_truthy value then ret s
      else (log ERROR (name +:+ " environment variable is required") [] ;; sys_exit 1)
  | None => log ERROR (name +:+ " environment variable is required") [] ;; sys_exit 1
  end.

(** [signal.signal(sig, signal_handler)] *)
Definition signal_signal (sig : signal_name) : M unit :=
  fun w => Return tt (emit (ESignal sig) w).

(** [initialize(api_key=..., app_key=...)] of the datadog package. *)
Definition initialize (api_key app_key : string) : M unit :=
  fun w => Return tt (emit (EInitialize api_key app_key) w).

(** Lines 112-146: everything [main] does before the loop. *)
Definition startup (environ : gmap string string) : M config :=
  signal_signal SIGINT ;;
  signal_signal SIGTERM ;;
  let openweather_api_key := getenv environ "OPENWEATHER_API_KEY" in
  let datadog_api_key := getenv environ "DATADOG_API_KEY" in
  let datadog_app_key := getenv environ "DATADOG_APP_KEY" in
  let zip_code := getenv environ "ZIP_CODE" in
  openweather_api_key <- require_env "OPENWEATHER_API_KEY" openweather_api_key ;;
  datadog_api_key <- require_env "DATADOG_API_KEY" datadog_api_key ;;
  datadog_app_key <- require_env "DATADOG_APP_KEY" datadog_app_key ;;
  zip_code <- require_env "ZIP_CODE" zip_code ;;
  initialize datadog_api_key datadog_app_key ;;
  log INFO "Datadog initialized successfully" [] ;;
  log INFO "Starting weather monitoring service..." [] ;;
  log INFO "Monitoring ZIP code: {zip_code}" [FStr zip_code] ;;
  log INFO "Press Ctrl+C to stop" [] ;;
  ret (Config openweather_api_key datadog_api_key datadog_app_key zip_code).

Definition main (fuel : nat) (environ : gmap string string) (w : world)
    : option (result unit) :=
  match startup environ w with
  | Raise e w' => Some (Raise e w')
  | Return c w' =>
      match main_loop fuel c w' with
      | Some (Return _ w'') =>
          Some (log INFO "Weather monitoring service stopped" [] w'')
      | other => other
      end
  end.

End Program.

(** The status the process exits with. *)
Definition exit_status (r : result unit) : Z :=
  match r with
  | Return _ _ => 0
  | Raise (SystemExit code) _ => code
  | Raise (Exc _) _ => 1
  end.

(** ** Reading the trace *)

Definition is_metric_send (e : event) : bool :=
  match e with EMetricSend _ _ _ => true | _ => false end.

Definition is_http_get (e : event) : bool :=
  match e with EHttpGet _ _ _ => true | _ => false end.

Definition is_sleep (e : event) : bool :=
  match e with ESleep _ => true | _ => false end.

(** A call that reaches the outside: a request, the Datadog set-up, a
    metric submission. *)
Definition is_network (e : event) : bool :=
  match e with
  | EHttpGet _ _ _ | EInitialize _ _ | EMetricSend _ _ _ => true
  | _ => false
  end.

Definition is_error_log (e : event) : bool :=
  match e with ELog ERROR _ _ => true | _ => false end.

(** The metric submissions of a run, in the order they were issued. *)
Definition submissions (w : world) : list event :=
  List.filter is_metric_send (trace w).

Definition requests_made (w : world) : list event :=
  List.filter is_http_get (trace w).

Definition sleeps (w : world) : list event :=
  List.filter is_sleep (trace w).

(** ** The worlds a call leaves behind *)

Definition bump_gets (w : world) : world :=
  World (now w) (shutdown_flag w) (pending w) (S (gets w)) (sends w) (trace w).

Definition bump_sends (w : world) : world :=
  World (now w) (shutdown_flag w) (pending w) (gets w) (S (sends w)) (trace w).

(** The world when [requests.get] comes back after [d] milliseconds. *)
Definition requested (zip_code api_key : string) (d : N) (w : world) : world :=
  advance (Z.of_N d)
    (emit (EHttpGet "https://api.openweathermap.org/data/2.5/weather"
             [("zip", zip_code); ("appid", api_key); ("units", "metric")] 10)
       (bump_gets
          (emit (ELog INFO "Fetching weather data for ZIP code: {zip_code}"
                   [FStr zip_code]) w))).

(** The world when a submission comes back after [d] milliseconds. *)
Definition submitted (metric : string) (v : pyval) (d : N) (w : world) : world :=
  advance (Z.of_N d)
    (emit (EMetricSend metric [(now w ÷ 1000, v)] "gauge") (bump_sends w)).

(** ** Signals and the clock *)

Definition handler_log : event :=
  ELog INFO "Received shutdown signal, stopping..." [].

Lemma handlers_run (l : list Z) (b : world) :
  let w := fold_right (fun _ w' => signal_handler w') b l in
  now w = now b /\ pending w = pending b /\ gets w = gets b /\
  sends w = sends b /\
  shutdown_flag w = (shutdown_flag b || negb (Nat.eqb (length l) 0))%bool /\
  trace w = trace b ++ repeat handler_log (length l).
Proof.
  induction l as [|s l IH]; simpl.
  - rewrite orb_false_r, app_nil_r. tauto.
  - destruct IH as (Hn & Hp & Hg & Hs & Hf & Ht).
    rewrite Hn, Hp, Hg, Hs, Ht, orb_true_r.
    repeat split; try reflexivity.
    rewrite <- app_assoc. f_equal.
    symmetry. apply repeat_cons.
Qed.

Lemma now_advance d w : now (advance d w) = now w + d.
Proof. unfold advance. now destruct (handlers_run (due_by (now w + d) (pending w))
  (World (now w + d) (shutdown_flag w) (later_than (now w + d) (pending w))
     (gets w) (sends w) (trace w))) as (-> & _). Qed.

Lemma pending_advance d w :
  pending (advance d w) = later_than (now w + d) (pending w).
Proof. unfold advance. now destruct (handlers_run (due_by (now w + d) (pending w))
  (World (now w + d) (shutdown_flag w) (later_than (now w + d) (pending w))
     (gets w) (sends w) (trace w))) as (_ & -> & _). Qed.

Lemma gets_advance d w : gets (advance d w) = gets w.
Proof. unfold advance. now destruct (handlers_run (due_by (now w + d) (pending w))
  (World (now w + d) (shutdown_flag w) (later_than (now w + d) (pending w))
     (gets w) (sends w) (trace w))) as (_ & _ & -> & _). Qed.

Lemma sends_advance d w : sends (advance d w) = sends w.
Proof. unfold advance. now destruct (handlers_run (due_by (now w + d) (pending w))
  (World (now w + d) (shutdown_flag w) (later_than (now w + d) (pending w))
     (gets w) (sends w) (trace w))) as (_ & _ & _ & -> & _). Qed.

Lemma flag_advance d w :
  shutdown_flag (advance d w)
  = (shutdown_flag w
     || negb (Nat.eqb (length (due_by (now w + d) (pending w))) 0))%bool.
Proof. unfold advance. now destruct (handlers_run (due_by (now w + d) (pending w))
  (World (now w + d) (shutdown_flag w) (later_than (now w + d) (pending w))
     (gets w) (sends w) (trace w))) as (_ & _ & _ & _ & -> & _). Qed.

Lemma trace_advance d w :
  trace (advance d w)
  = trace w ++ repeat handler_log (length (due_by (now w + d) (pending w))).
Proof. unfold advance. now destruct (handlers_run (due_by (now w + d) (pending w))
  (World (now w + d) (shutdown_flag w) (later_than (now w + d) (pending w))
     (gets w) (sends w) (trace w))) as (_ & _ & _ & _ & _ & ->). Qed.

(** A signal due by the end of a blocking call has set the flag when the
    call returns. *)
Lemma flag_advance_due d w s :
  In s (pending w) -> s <= now w + d -> shutdown_flag (advance d w) = true.
Proof.
  intros Hin Hle. rewrite flag_advance.
  assert (Hd : In s (due_by (now w + d) (pending w))).
  { apply filter_In. split; [exact Hin | now apply Z.leb_le]. }
  destruct (due_by (now w + d) (pending w)); [destruct Hd |].
  simpl. apply orb_true_r.
Qed.

(** With no signal due, the flag is what it was. *)
Lemma flag_advance_quiet d w :
  (forall s, In s (pending w) -> now w + d < s) ->
  shutdown_flag (advance d w) = shutdown_flag w.
Proof.
  intros Hq. rewrite flag_advance.
  assert (Hd : due_by (now w + d) (pending w) = []).
  { unfold due_by. induction (pending w) as [|s l IH]; [reflexivity |].
    simpl. destruct (Z.leb_spec s (now w + d)) as [Hle|Hlt].
    - specialize (Hq s (or_introl eq_refl)). lia.
    - apply IH. intros s' Hs'. apply Hq. now right. }
  rewrite Hd. simpl. apply orb_false_r.
Qed.

Lemma trace_advance_quiet d w :
  (forall s, In s (pending w) -> now w + d < s) ->
  trace (advance d w) = trace w.
Proof.
  intros Hq. rewrite trace_advance.
  assert (Hd : due_by (now w + d) (pending w) = []).
  { unfold due_by. induction (pending w) as [|s l IH]; [reflexivity |].
    simpl. destruct (Z.leb_spec s (now w + d)) as [Hle|Hlt].
    - specialize (Hq s (or_introl eq_refl)). lia.
    - apply IH. intros s' Hs'. apply Hq. now right. }
  rewrite Hd. simpl. apply app_nil_r.
Qed.

(** A signal not yet due stays pending. *)
Lemma pending_advance_later d w s :
  In s (pending w) -> now w + d < s -> In s (pending (advance d w)).
Proof.
  intros Hin Hlt. rewrite pending_advance. apply filter_In.
  split; [exact Hin |]. apply negb_true_iff, Z.leb_gt. exact Hlt.
Qed.

Lemma pending_advance_sub d w s :
  In s (pending (advance d w)) -> In s (pending w) /\ now w + d < s.
Proof.
  rewrite pending_advance. intros H. apply filter_In in H as [Hin Hb].
  split; [exact Hin |]. apply negb_true_iff, Z.leb_gt in Hb. exact Hb.
Qed.

(** The handler only logs: no class of effect below sees it. *)
Lemma filter_handler_logs (f : event -> bool) n :
  f handler_log = false -> List.filter f (repeat handler_log n) = [].
Proof. intros Hf. induction n as [|n IH]; simpl; [reflexivity |]. now rewrite Hf. Qed.

Lemma filter_trace_advance (f : event -> bool) d w :
  f handler_log = false ->
  List.filter f (trace (advance d w)) = List.filter f (trace w).
Proof.
  intros Hf. rewrite trace_advance, List.filter_app, filter_handler_logs by exact Hf.
  apply app_nil_r.
Qed.

Lemma filter_trace_emit (f : event -> bool) e w :
  List.filter f (trace (emit e w))
  = List.filter f (trace w) ++ (if f e then [e] else []).
Proof. unfold emit. simpl. rewrite List.filter_app. simpl. now destruct (f e). Qed.

(** ** What [get_weather_data] returns, case by case *)

Section Fetch.

Variable net : network.
Variables zip_code api_key : string.

Ltac run_fetch Hreply :=
  unfold get_weather_data, try_except, bind, log, requests_get; cbn [gets emit];
  rewrite Hreply; unfold raise_for_status, response_json, raise, ret.

(** [requests.get] raises: the first [except] clause answers [None]. *)
Lemma fetch_transport_error w d t :
  http_reply net (gets w) = (d, GetRaises t) ->
  get_weather_data net zip_code api_key w
  = Return PNone
      (emit (ELog ERROR "Error fetching weather data: {e}"
               [FExn (Exc (RequestException (Transport t)))])
         (requested zip_code api_key d w)).
Proof. intros Hreply. run_fetch Hreply. reflexivity. Qed.

(** [raise_for_status] raises [HTTPError]: same clause. *)
Lemma fetch_http_error w d r :
  http_reply net (gets w) = (d, GetResponse r) ->
  is_error_status (status_code r) = true ->
  get_weather_data net zip_code api_key w
  = Return PNone
      (emit (ELog ERROR "Error fetching weather data: {e}"
               [FExn (Exc (RequestException (HTTPError (status_code r))))])
         (requested zip_code api_key d w)).
Proof. intros Hreply Hs. run_fetch Hreply. rewrite Hs. reflexivity. Qed.

(** The body is not JSON: [response.json()] raises a [RequestException]. *)
Lemma fetch_not_json w d r :
  http_reply net (gets w) = (d, GetResponse r) ->
  is_error_status (status_code r) = false ->
  json_body r = None ->
  get_weather_data net zip_code api_key w
  = Return PNone
      (emit (ELog ERROR "Error fetching weather data: {e}"
               [FExn (Exc (RequestException JSONDecodeError))])
         (requested zip_code api_key d w)).
Proof. intros Hreply Hs Hj. run_fetch Hreply. rewrite Hs, Hj. reflexivity. Qed.

(** A key is missing: the second [except] clause answers [None]. *)
Lemma fetch_no_main w d r body :
  http_reply net (gets w) = (d, GetResponse r) ->
  is_error_status (status_code r) = false ->
  json_body r = Some (PDict body) ->
  body !! "main" = None ->
  get_weather_data net zip_code api_key w
  = Return PNone
      (emit (ELog ERROR "Unexpected response format from OpenWeather API: {e}"
               [FExn (Exc (KeyError "main"))])
         (requested zip_code api_key d w)).
Proof.
  intros Hreply Hs Hj Hm. run_fetch Hreply. rewrite Hs, Hj.
  unfold subscript, raise. rewrite Hm. reflexivity.
Qed.

Lemma fetch_no_temp w d r body m :
  http_reply net (gets w) = (d, GetResponse r) ->
  is_error_status (status_code r) = false ->
  json_body r = Some (PDict body) ->
  body !! "main" = Some (PDict m) ->
  m !! "temp" = None ->
  get_weather_data net zip_code api_key w
  = Return PNone
      (emit (ELog ERROR "Unexpected response format from OpenWeather API: {e}"
               [FExn (Exc (KeyError "temp"))])
         (requested zip_code api_key d w)).
Proof.
  intros Hreply Hs Hj Hm Ht. run_fetch Hreply. rewrite Hs, Hj.
  unfold subscript, raise, ret. rewrite Hm, Ht. reflexivity.
Qed.

Lemma fetch_no_humidity w d r body m t :
  http_reply net (gets w) = (d, GetResponse r) ->
  is_error_status (status_code r) = false ->
  json_body r = Some (PDict body) ->
  body !! "main" = Some (PDict m) ->
  m !! "temp" = Some t ->
  m !! "humidity" = None ->
  get_weather_data net zip_code api_key w
  = Return PNone
      (emit (ELog ERROR "Unexpected response format from OpenWeather API: {e}"
               [FExn (Exc (KeyError "humidity"))])
         (requested zip_code api_key d w)).
Proof.
  intros Hreply Hs Hj Hm Ht Hh. run_fetch Hreply. rewrite Hs, Hj.
  unfold subscript, raise, ret. rewrite Hm, Ht, Hh. reflexivity.
Qed.

(** Both fields are there: they come back as they are. *)
Lemma fetch_reading w d r body m t h :
  http_reply net (gets w) = (d, GetResponse r) ->
  is_error_status (status_code r) = false ->
  json_body r = Some (PDict body) ->
  body !! "main" = Some (PDict m) ->
  m !! "temp" = Some t ->
  m !! "humidity" = Some h ->
  get_weather_data net zip_code api_key w
  = Return (reading t h)
      (emit (ELog INFO
               "Received weather data - Temperature: {temperature}°F, Humidity: {humidity}%"
               [FVal t; FVal h])
         (requested zip_code api_key d w)).
Proof.
  intros Hreply Hs Hj Hm Ht Hh. run_fetch Hreply. rewrite Hs, Hj.
  unfold subscript, raise, ret. rewrite Hm, Ht, Hh. reflexivity.
Qed.

(** What is not a dict cannot be indexed by a string. *)
Definition is_dict (v : pyval) : bool :=
  match v with PDict _ => true | _ => false end.

(** [main] is there but is not an object: the [TypeError] of
    [data["main"]["temp"]] matches neither [except] clause. *)
Lemma fetch_main_not_dict w d r body v :
  http_reply net (gets w) = (d, GetResponse r) ->
  is_error_status (status_code r) = false ->
  json_body r = Some (PDict body) ->
  body !! "main" = Some v ->
  is_dict v = false ->
  exists msg,
    get_weather_data net zip_code api_key w
    = Raise (Exc (TypeError msg)) (requested zip_code api_key d w).
Proof.
  intros Hreply Hs Hj Hm Hv. run_fetch Hreply. rewrite Hs, Hj.
  unfold subscript at 1. unfold ret. rewrite Hm.
  destruct v; try discriminate Hv; eexists; reflexivity.
Qed.

(** The body is JSON but not an object: [data["main"]] raises likewise. *)
Lemma fetch_body_not_dict w d r v :
  http_reply net (gets w) = (d, GetResponse r) ->
  is_error_status (status_code r) = false ->
  json_body r = Some v ->
  is_dict v = false ->
  exists msg,
    get_weather_data net zip_code api_key w
    = Raise (Exc (TypeError msg)) (requested zip_code api_key d w).
Proof.
  intros Hreply Hs Hj Hv. run_fetch Hreply. rewrite Hs, Hj.
  destruct v; try discriminate Hv; eexists; reflexivity.
Qed.

End Fetch.

(** ** What [submit_datadog_metrics] does, case by case *)

Section Publish.

Variable net : network.
Variables temperature humidity : pyval.
Variables api_key app_key : string.

Definition temperature_logged : event :=
  ELog INFO "Submitted metric: environment.temperature.outside = {temperature}°F"
    [FVal temperature].

Definition humidity_logged : event :=
  ELog INFO "Submitted metric: environment.humidity.outside = {humidity}%"
    [FVal humidity].

Definition publish_failed (e : exception) : event :=
  ELog ERROR "Error submitting metrics to Datadog: {e}" [FExn (Exc e)].

Lemma metric_send_eq metric v w d o :
  send_reply net (sends w) = (d, o) ->
  metric_send net metric [(now w ÷ 1000, v)] "gauge" w
  = match o with
    | None => Return tt (submitted metric v d w)
    | Some e => Raise (Exc e) (submitted metric v d w)
    end.
Proof. intros H. unfold metric_send. rewrite H. destruct o; reflexivity. Qed.

(** The first [api.Metric.send] raises: control leaves the [try] block
    there, and the handler logs the error. *)
Lemma publish_first_fails w d e :
  send_reply net (sends w) = (d, Some e) ->
  submit_datadog_metrics net temperature humidity api_key app_key w
  = Return tt
      (emit (publish_failed e)
         (submitted "environment.temperature.outside" temperature d w)).
Proof.
  intros H1. unfold submit_datadog_metrics, try_except, bind, int_time.
  rewrite (metric_send_eq _ _ _ _ _ H1). reflexivity.
Qed.

(** The first returns: the second is issued, and its outcome only decides
    which line is logged. *)
Lemma publish_first_ok w d1 d2 o2 :
  send_reply net (sends w) = (d1, None) ->
  send_reply net (S (sends w)) = (d2, o2) ->
  submit_datadog_metrics net temperature humidity api_key app_key w
  = Return tt
      (emit (match o2 with
             | None => humidity_logged
             | Some e => publish_failed e
             end)
         (submitted "environment.humidity.outside" humidity d2
            (emit temperature_logged
               (submitted "environment.temperature.outside" temperature d1 w)))).
Proof.
  intros H1 H2. unfold submit_datadog_metrics, try_except, bind, int_time.
  rewrite (metric_send_eq _ _ _ _ _ H1). unfold log at 1.
  set (w1 := emit _ (submitted "environment.temperature.outside" temperature d1 w)).
  assert (H2' : send_reply net (sends w1) = (d2, o2)).
  { subst w1. cbn [sends emit]. unfold submitted. rewrite sends_advance. exact H2. }
  rewrite (metric_send_eq _ _ _ _ _ H2'). destruct o2; reflexivity.
Qed.

End Publish.

Lemma now_submitted metric v d w : now (submitted metric v d w) = now w + Z.of_N d.
Proof. unfold submitted. now rewrite now_advance. Qed.

Lemma sends_submitted metric v d w : sends (submitted metric v d w) = S (sends w).
Proof. unfold submitted. now rewrite sends_advance. Qed.

Lemma submissions_emit e w :
  submissions (emit e w) = submissions w ++ (if is_metric_send e then [e] else []).
Proof. apply filter_trace_emit. Qed.

Lemma submissions_submitted metric v d w :
  submissions (submitted metric v d w)
  = submissions w ++ [EMetricSend metric [(now w ÷ 1000, v)] "gauge"].
Proof.
  unfold submitted, submissions.
  rewrite filter_trace_advance by reflexivity.
  now rewrite filter_trace_emit.
Qed.

(** ** The wait between two cycles *)

(** The world after one [time.sleep(1)]. *)
Definition slept (w : world) : world := advance 1000 (emit (ESleep 1) w).

Definition waiting_logged : event :=
  ELog INFO "Waiting 15 seconds until next check..." [].

Lemma sleep_segments_step n w :
  shutdown_flag w = false ->
  sleep_segments (S n) w = sleep_segments n (slept w).
Proof. intros Hf. simpl. rewrite Hf. reflexivity. Qed.

(** With the flag set, no segment is slept. *)
Lemma sleep_segments_stop n w :
  shutdown_flag w = true -> sleep_segments n w = Return tt w.
Proof. intros Hf. destruct n; simpl; [reflexivity |]. now rewrite Hf. Qed.

Lemma now_slept w : now (slept w) = now w + 1000.
Proof. unfold slept. now rewrite now_advance. Qed.

Lemma sleeps_slept w : sleeps (slept w) = sleeps w ++ [ESleep 1].
Proof.
  unfold slept, sleeps. rewrite filter_trace_advance by reflexivity.
  now rewrite filter_trace_emit.
Qed.

(** The segments slept: how many ([k]), how long, and why they ended. *)
Lemma sleep_segments_spec n : forall w,
  shutdown_flag w = false ->
  exists w' k,
    sleep_segments n w = Return tt w' /\
    (k <= n)%nat /\
    now w' = now w + 1000 * Z.of_nat k /\
    sleeps w' = sleeps w ++ repeat (ESleep 1) k /\
    (k = n \/ shutdown_flag w' = true) /\
    (forall s, In s (pending w) -> now w < s <= now w + 1000 * Z.of_nat n ->
       shutdown_flag w' = true /\ now w' < s + 1000) /\
    ((forall s, In s (pending w) -> now w + 1000 * Z.of_nat n < s) ->
       k = n /\ shutdown_flag w' = false).
Proof.
  induction n as [|n IH]; intros w Hf.
  - exists w, O. simpl. rewrite app_nil_r.
    repeat split; auto; try lia.
  - rewrite (sleep_segments_step n w Hf).
    destruct (shutdown_flag (slept w)) eqn:Hf1.
    + exists (slept w), 1%nat. rewrite (sleep_segments_stop n _ Hf1).
      repeat split; auto; try lia.
      * apply now_slept.
      * apply sleeps_slept.
      * rewrite now_slept. lia.
      * exfalso. unfold slept in Hf1. rewrite flag_advance_quiet in Hf1.
        -- simpl in Hf1. congruence.
        -- simpl. intros s Hs. specialize (H s Hs). lia.
      * exfalso. unfold slept in Hf1. rewrite flag_advance_quiet in Hf1.
        -- simpl in Hf1. congruence.
        -- simpl. intros s Hs. specialize (H s Hs). lia.
    + destruct (IH (slept w) Hf1) as (w' & k & Hrun & Hk & Hnow & Hsl & Hend & Hsig & Hquiet).
      exists w', (S k). rewrite now_slept in Hnow, Hsig, Hquiet.
      split; [exact Hrun |]. split; [lia |]. split; [lia |].
      split; [rewrite Hsl, sleeps_slept, <- app_assoc; reflexivity |].
      split; [destruct Hend; [left; lia | right; assumption] |].
      split.
      * intros s Hs Hrange.
        destruct (Z_le_gt_dec s (now w + 1000)) as [Hle|Hgt].
        -- exfalso. unfold slept in Hf1.
           rewrite (flag_advance_due 1000 (emit (ESleep 1) w) s) in Hf1;
             [discriminate | exact Hs | simpl; lia].
        -- apply Hsig; [| lia].
           unfold slept. apply pending_advance_later; [exact Hs | simpl; lia].
      * intros Hq. destruct Hquiet as [Hkn Hfl].
        -- intros s Hs. unfold slept in Hs.
           apply pending_advance_sub in Hs as [Hs _]. specialize (Hq s Hs). lia.
        -- split; [lia | exact Hfl].
Qed.

Lemma wait_phase_eq w :
  shutdown_flag w = false ->
  wait_phase w = sleep_segments 300 (emit waiting_logged w).
Proof. intros Hf. unfold wait_phase. rewrite Hf. reflexivity. Qed.

Section Loop.

Variable net : network.
Variable c : config.

(** Once the flag is set, [while not shutdown_flag] is left at once. *)
Lemma main_loop_stop fuel w :
  shutdown_flag w = true -> main_loop net fuel c w = Some (Return tt w).
Proof. intros Hf. destruct fuel; simpl; now rewrite Hf. Qed.

Lemma main_loop_step fuel w :
  shutdown_flag w = false ->
  main_loop net (S fuel) c w
  = match cycle net c w with
    | Return _ w' => main_loop net fuel c w'
    | Raise e w' => Some (Raise e w')
    end.
Proof. intros Hf. simpl. now rewrite Hf. Qed.

End Loop.

(** ** Start-up *)

Definition required_names : list string :=
  ["OPENWEATHER_API_KEY"; "DATADOG_API_KEY"; "DATADOG_APP_KEY"; "ZIP_CODE"].

Definition required_logged (name : string) : event :=
  ELog ERROR (name +:+ " environment variable is required") [].

(** The world in which [main] gives up on the variable [name]. *)
Definition rejected (name : string) (w : world) : world :=
  emit (required_logged name) (emit (ESignal SIGTERM) (emit (ESignal SIGINT) w)).

Lemma require_env_ok name value w :
  str_truthy value = true ->
  exists s, value = Some s /\ require_env name value w = Return s w.
Proof.
  intros Hv. destruct value as [s|]; [| discriminate].
  exists s. split; [reflexivity |]. unfold require_env. now rewrite Hv.
Qed.

Lemma require_env_exit name value w :
  str_truthy value = false ->
  require_env name value w = Raise (SystemExit 1) (emit (required_logged name) w).
Proof.
  intros Hv. unfold require_env. destruct value as [s|]; [rewrite Hv |]; reflexivity.
Qed.

Ltac step_required name value w :=
  let Hv := fresh "Hv" in
  let s := fresh "s" in
  let Hs := fresh "Hs" in
  let Hr := fresh "Hr" in
  destruct (str_truthy value) eqn:Hv;
  [ destruct (require_env_ok name value w Hv) as (s & Hs & Hr); rewrite Hr
  | rewrite (require_env_exit name value w Hv) ].

(** [main] stops at the first required variable whose value is false. *)
Lemma startup_rejects environ name w :
  In name required_names ->
  str_truthy (getenv environ name) = false ->
  exists culprit,
    In culprit required_names /\
    str_truthy (getenv environ culprit) = false /\
    startup environ w = Raise (SystemExit 1) (rejected culprit w).
Proof.
  intros Hin Hfalse. unfold startup, bind, signal_signal.
  set (w0 := emit (ESignal SIGTERM) (emit (ESignal SIGINT) w)).
  step_required "OPENWEATHER_API_KEY" (getenv environ "OPENWEATHER_API_KEY") w0;
    [| exists "OPENWEATHER_API_KEY"; simpl; auto].
  step_required "DATADOG_API_KEY" (getenv environ "DATADOG_API_KEY") w0;
    [| exists "DATADOG_API_KEY"; simpl; auto].
  step_required "DATADOG_APP_KEY" (getenv environ "DATADOG_APP_KEY") w0;
    [| exists "DATADOG_APP_KEY"; simpl; auto].
  step_required "ZIP_CODE" (getenv environ "ZIP_CODE") w0;
    [| exists "ZIP_CODE"; simpl; auto 6].
  exfalso. simpl in Hin.
  destruct Hin as [<-|[<-|[<-|[<-|[]]]]]; congruence.
Qed.

Lemma main_rejects net fuel environ name w :
  In name required_names ->
  str_truthy (getenv environ name) = false ->
  exists culprit,
    In culprit required_names /\
    main net fuel environ w = Some (Raise (SystemExit 1) (rejected culprit w)).
Proof.
  intros Hin Hfalse.
  destruct (startup_rejects environ name w Hin Hfalse) as (culprit & Hc & _ & Hrun).
  exists culprit. split; [exact Hc |]. unfold main. now rewrite Hrun.
Qed.

(** ** The reading handed from the fetch to the publisher *)

Lemma reading_temperature t h w :
  subscript (reading t h) "temperature" w = Return t w.
Proof. unfold subscript, reading. rewrite lookup_insert_eq. reflexivity. Qed.

Lemma reading_humidity t h w :
  subscript (reading t h) "humidity" w = Return h w.
Proof.
  unfold subscript, reading.
  rewrite lookup_insert_ne by discriminate. rewrite lookup_insert_eq. reflexivity.
Qed.

(** A dict with two keys is true. *)
Lemma reading_truthy t h : truthy (reading t h) = true.
Proof.
  unfold truthy, reading.
  rewrite map_size_insert_None.
  - reflexivity.
  - rewrite lookup_insert_ne by discriminate. apply lookup_empty.
Qed.

Lemma publish_reading net t h dk ak w :
  publish_or_skip net (reading t h) dk ak w = submit_datadog_metrics net t h dk ak w.
Proof.
  unfold publish_or_skip. rewrite reading_truthy. unfold bind.
  now rewrite reading_temperature, reading_humidity.
Qed.

Lemma publish_none net dk ak w :
  publish_or_skip net PNone dk ak w
  = Return tt (emit (ELog WARNING
      "Skipping metric submission due to weather data fetch failure" []) w).
Proof. reflexivity. Qed.

(** ** Nothing is ever removed from the trace *)

Definition extends (w w' : world) : Prop := exists l, trace w' = trace w ++ l.

Lemma extends_refl w : extends w w.
Proof. exists []. now rewrite app_nil_r. Qed.

Lemma extends_trans w1 w2 w3 : extends w1 w2 -> extends w2 w3 -> extends w1 w3.
Proof. intros [l1 H1] [l2 H2]. exists (l1 ++ l2). now rewrite H2, H1, app_assoc. Qed.

Lemma extends_emit e w : extends w (emit e w).
Proof. now exists [e]. Qed.

Lemma extends_advance d w : extends w (advance d w).
Proof. eexists. apply trace_advance. Qed.

Lemma extends_In w w' e : extends w w' -> In e (trace w) -> In e (trace w').
Proof. intros [l ->] Hin. apply in_or_app. now left. Qed.

Lemma extends_slept w : extends w (slept w).
Proof. unfold slept. eapply extends_trans; [apply extends_emit | apply extends_advance]. Qed.

Lemma extends_sleep_segments n : forall w,
  exists w', sleep_segments n w = Return tt w' /\ extends w w'.
Proof.
  induction n as [|n IH]; intros w.
  - exists w. split; [reflexivity | apply extends_refl].
  - destruct (shutdown_flag w) eqn:Hf.
    + exists w. split; [now apply sleep_segments_stop | apply extends_refl].
    + rewrite (sleep_segments_step n w Hf).
      destruct (IH (slept w)) as (w' & Hrun & Hext).
      exists w'. split; [exact Hrun |].
      eapply extends_trans; [apply extends_slept | exact Hext].
Qed.

(** The wait always comes back, and keeps what was traced. *)
Lemma extends_wait_phase w :
  exists w', wait_phase w = Return tt w' /\ extends w w'.
Proof.
  destruct (shutdown_flag w) eqn:Hf.
  - exists w. unfold wait_phase. rewrite Hf. split; [reflexivity | apply extends_refl].
  - rewrite (wait_phase_eq w Hf).
    destruct (extends_sleep_segments 300 (emit waiting_logged w)) as (w' & Hrun & Hext).
    exists w'. split; [exact Hrun |].
    eapply extends_trans; [apply extends_emit | exact Hext].
Qed.

Lemma extends_submitted metric v d w : extends w (submitted metric v d w).
Proof.
  unfold submitted. eapply extends_trans; [| apply extends_advance].
  eexists. unfold emit, bump_sends. simpl. reflexivity.
Qed.

Lemma In_submitted metric v d w :
  In (EMetricSend metric [(now w ÷ 1000, v)] "gauge") (trace (submitted metric v d w)).
Proof.
  unfold submitted. eapply extends_In; [apply extends_advance |].
  unfold emit. simpl. apply in_or_app. right. now left.
Qed.

(** The publisher always comes back, with the temperature submission
    issued at the second it was called. *)
Lemma publish_returns net t h dk ak w :
  exists w',
    submit_datadog_metrics net t h dk ak w = Return tt w' /\
    In (EMetricSend "environment.temperature.outside" [(now w ÷ 1000, t)] "gauge")
       (trace w').
Proof.
  destruct (send_reply net (sends w)) as [d1 [e|]] eqn:H1.
  - eexists. split; [apply (publish_first_fails net t h dk ak w d1 e H1) |].
    eapply extends_In; [apply extends_emit | apply In_submitted].
  - destruct (send_reply net (S (sends w))) as [d2 o2] eqn:H2.
    eexists. split; [apply (publish_first_ok net t h dk ak w d1 d2 o2 H1 H2) |].
    eapply extends_In; [apply extends_emit |].
    eapply extends_In; [apply extends_submitted |].
    eapply extends_In; [apply extends_emit | apply In_submitted].
Qed.

(** * The properties of the specification *)

(** ** Sample inputs *)

(** A process just started, at 2023-11-14 22:13:20.123 UTC. *)
Definition fresh_world : world := World 1700000000123 false [] 0 0 [].

(** The object [{"temp": t, "humidity": h}]. *)
Definition main_object (t h : pyval) : pyval :=
  PDict (<["temp" := t]> (<["humidity" := h]> ∅)).

(** The body [{"main": m}]. *)
Definition weather_body (m : pyval) : gmap string pyval := <["main" := m]> ∅.

(** A provider that always answers, after 250 ms, with the given status and
    JSON body, and a backend that accepts every submission after 100 ms. *)
Definition answering (status : Z) (body : pyval) : network :=
  Network (fun _ => (250%N, GetResponse (Response status (Some body))))
          (fun _ => (100%N, None)).

Definition mild_day : pyval := PDict (weather_body (main_object (PFloat 21.5) (PInt 63))).

(** ** The fetcher *)

(** C1.  For every successful provider response (one on which
    [raise_for_status] does not raise) whose JSON body holds
    [main.temp = 21.5] and [main.humidity = 63], [get_weather_data] returns
    a dict that holds 21.5 under [temperature] and 63 under [humidity], and
    no other key, whatever the ZIP code and the API key. *)
Theorem fetch_returns_reading net zip key w d r body m :
  http_reply net (gets w) = (d, GetResponse r) ->
  is_error_status (status_code r) = false ->
  json_body r = Some (PDict body) ->
  body !! "main" = Some (PDict m) ->
  m !! "temp" = Some (PFloat 21.5) ->
  m !! "humidity" = Some (PInt 63) ->
  exists (fields : gmap string pyval) w',
    get_weather_data net zip key w = Return (PDict fields) w' /\
    fields !! "temperature" = Some (PFloat 21.5) /\
    fields !! "humidity" = Some (PInt 63) /\
    (forall k, is_Some (fields !! k) -> k = "temperature" \/ k = "humidity").
Proof.
  intros Hreply Hs Hj Hm Ht Hh.
  exists (<["temperature" := PFloat 21.5]> (<["humidity" := PInt 63]> ∅)).
  eexists.
  split; [exact (fetch_reading net zip key w d r body m _ _ Hreply Hs Hj Hm Ht Hh) |].
  split; [apply lookup_insert_eq |].
  split; [rewrite lookup_insert_ne by discriminate; apply lookup_insert_eq |].
  intros k [v Hk].
  destruct (decide (k = "temperature")) as [-> | Hnt]; [now left |].
  destruct (decide (k = "humidity")) as [-> | Hnh]; [now right |].
  rewrite !lookup_insert_ne, lookup_empty in Hk by congruence. discriminate Hk.
Qed.

Lemma fetch_returns_reading_witness :
  is_error_status 200 = false /\
  exists (fields : gmap string pyval) w',
    get_weather_data (answering 200 mild_day) "10001" "secret" fresh_world
    = Return (PDict fields) w' /\
    fields !! "temperature" = Some (PFloat 21.5) /\
    fields !! "humidity" = Some (PInt 63) /\
    (forall k, is_Some (fields !! k) -> k = "temperature" \/ k = "humidity").
Proof.
  split; [reflexivity |].
  apply (fetch_returns_reading (answering 200 mild_day) "10001" "secret" fresh_world
           250%N (Response 200 (Some mild_day))
           (weather_body (main_object (PFloat 21.5) (PInt 63)))
           (<["temp" := PFloat 21.5]> (<["humidity" := PInt 63]> ∅)));
    vm_compute; reflexivity.
Defined.

(** C10.  The two fields are not validated: whenever [main.temp] and
    [main.humidity] are present in the body of a successful response, the
    reading holds exactly these two values, of whatever type, and the cycle
    hands them unchanged to [submit_datadog_metrics], whose temperature
    submission carries the raw value. *)
Theorem fetch_passes_values_through net c w d r body m t h :
  http_reply net (gets w) = (d, GetResponse r) ->
  is_error_status (status_code r) = false ->
  json_body r = Some (PDict body) ->
  body !! "main" = Some (PDict m) ->
  m !! "temp" = Some t ->
  m !! "humidity" = Some h ->
  exists w1,
    get_weather_data net (zip_code c) (openweather_api_key c) w
      = Return (reading t h) w1 /\
    cycle net c w
      = (submit_datadog_metrics net t h (datadog_api_key c) (datadog_app_key c) ;;
         wait_phase) w1 /\
    In (EMetricSend "environment.temperature.outside" [(now w1 ÷ 1000, t)] "gauge")
       (trace (world_of (cycle net c w))).
Proof.
  intros Hreply Hs Hj Hm Ht Hh.
  pose proof (fetch_reading net (zip_code c) (openweather_api_key c)
                w d r body m t h Hreply Hs Hj Hm Ht Hh) as Hfetch.
  eexists. split; [exact Hfetch |].
  assert (Hcycle : forall w1,
    get_weather_data net (zip_code c) (openweather_api_key c) w = Return (reading t h) w1 ->
    cycle net c w
    = (submit_datadog_metrics net t h (datadog_api_key c) (datadog_app_key c) ;;
       wait_phase) w1).
  { intros w1 H1. unfold cycle, bind. rewrite H1, publish_reading. reflexivity. }
  split; [apply Hcycle, Hfetch |].
  rewrite (Hcycle _ Hfetch). unfold bind.
  match goal with |- context [submit_datadog_metrics net t h ?dk ?ak ?w1] =>
    destruct (publish_returns net t h dk ak w1) as (w2 & -> & Hin) end.
  destruct (extends_wait_phase w2) as (w3 & -> & Hext).
  simpl. eapply extends_In; [exact Hext | exact Hin].
Qed.

Definition sample_config : config := Config "secret" "dd-api" "dd-app" "10001".

Lemma fetch_passes_values_through_witness :
  exists w1,
    get_weather_data
      (answering 200 (PDict (weather_body (main_object (PStr "warm") PNone))))
      "10001" "secret" fresh_world
      = Return (reading (PStr "warm") PNone) w1 /\
    cycle (answering 200 (PDict (weather_body (main_object (PStr "warm") PNone))))
      sample_config fresh_world
      = (submit_datadog_metrics
           (answering 200 (PDict (weather_body (main_object (PStr "warm") PNone))))
           (PStr "warm") PNone "dd-api" "dd-app" ;; wait_phase) w1 /\
    In (EMetricSend "environment.temperature.outside"
          [(now w1 ÷ 1000, PStr "warm")] "gauge")
       (trace (world_of
          (cycle (answering 200 (PDict (weather_body (main_object (PStr "warm") PNone))))
             sample_config fresh_world))).
Proof.
  apply (fetch_passes_values_through
           (answering 200 (PDict (weather_body (main_object (PStr "warm") PNone))))
           sample_config fresh_world 250%N
           (Response 200 (Some (PDict (weather_body (main_object (PStr "warm") PNone)))))
           (weather_body (main_object (PStr "warm") PNone))
           (<["temp" := PStr "warm"]> (<["humidity" := PNone]> ∅)));
    vm_compute; reflexivity.
Defined.

(** What the response makes [get_weather_data] miss: the key [main] of the
    body, or [temp] or [humidity] of the object under [main]. *)
Definition lacks_field (body : gmap string pyval) : Prop :=
  body !! "main" = None \/
  exists m, body !! "main" = Some (PDict m) /\
            (m !! "temp" = None \/ m !! "humidity" = None).

(** C2, amended.  A response with a status in 400..599 makes
    [get_weather_data] return [None], and so does a successful response
    whose JSON object lacks [main], or whose [main] object lacks [temp] or
    [humidity]: never a reading, never half of one. *)
Theorem fetch_error_on_bad_status_or_missing_field net zip key w d r :
  http_reply net (gets w) = (d, GetResponse r) ->
  400 <= status_code r < 600 \/
  (is_error_status (status_code r) = false /\
   exists body, json_body r = Some (PDict body) /\ lacks_field body) ->
  exists w', get_weather_data net zip key w = Return PNone w'.
Proof.
  intros Hreply [Hstatus | (Hs & body & Hj & Hlack)].
  - eexists. apply (fetch_http_error net zip key w d r Hreply).
    unfold is_error_status.
    destruct (Z.ltb_spec (status_code r) 500).
    + replace (400 <=? status_code r) with true by (symmetry; apply Z.leb_le; lia).
      reflexivity.
    + replace (500 <=? status_code r) with true by (symmetry; apply Z.leb_le; lia).
      replace (status_code r <? 600) with true by (symmetry; apply Z.ltb_lt; lia).
      now rewrite orb_true_r.
  - destruct Hlack as [Hm | (m & Hm & Hfield)].
    + eexists. exact (fetch_no_main net zip key w d r body Hreply Hs Hj Hm).
    + destruct (m !! "temp") as [t|] eqn:Ht.
      * destruct Hfield as [Hfield | Hh]; [discriminate |].
        eexists. exact (fetch_no_humidity net zip key w d r body m t Hreply Hs Hj Hm Ht Hh).
      * eexists. exact (fetch_no_temp net zip key w d r body m Hreply Hs Hj Hm Ht).
Qed.

Lemma fetch_error_on_bad_status_or_missing_field_witness :
  400 <= 404 < 600 /\
  exists w',
    get_weather_data (answering 404 mild_day) "10001" "secret" fresh_world
    = Return PNone w'.
Proof.
  split; [lia |].
  apply (fetch_error_on_bad_status_or_missing_field (answering 404 mild_day)
           "10001" "secret" fresh_world 250%N (Response 404 (Some mild_day)));
    [reflexivity | left; simpl; lia].
Defined.

(** C2, as stated, fails for a status above 599: [raise_for_status] knows
    client errors (4xx) and server errors (5xx) only, so a response with
    status 600 and a complete body yields a reading. *)
Lemma status_600_yields_reading :
  400 <= status_code (Response 600 (Some mild_day)) /\
  (exists w',
     get_weather_data (answering 600 mild_day) "10001" "secret" fresh_world
     = Return (reading (PFloat 21.5) (PInt 63)) w') /\
  (forall w',
     get_weather_data (answering 600 mild_day) "10001" "secret" fresh_world
     <> Return PNone w').
Proof.
  assert (H : exists w',
     get_weather_data (answering 600 mild_day) "10001" "secret" fresh_world
     = Return (reading (PFloat 21.5) (PInt 63)) w').
  { eexists.
    apply (fetch_reading (answering 600 mild_day) "10001" "secret" fresh_world
             250%N (Response 600 (Some mild_day))
             (weather_body (main_object (PFloat 21.5) (PInt 63)))
             (<["temp" := PFloat 21.5]> (<["humidity" := PInt 63]> ∅)));
      vm_compute; reflexivity. }
  split; [simpl; lia |]. split; [exact H |].
  intros w' Hnone. destruct H as [w1 H1]. rewrite H1 in Hnone.
  unfold reading in Hnone. discriminate Hnone.
Qed.

(** C4.  A body whose [main] is a string: [data["main"]["temp"]] raises
    [TypeError], which neither [except] clause catches, so the exception
    leaves [get_weather_data] instead of [None] being returned. *)
Theorem fetch_raises_on_malformed_main :
  get_weather_data (answering 200 (PDict (weather_body (PStr "clear sky"))))
    "10001" "secret" fresh_world
  = Raise (Exc (TypeError "string indices must be integers, not 'str'"))
      (World 1700000000373 false [] 1 0
         [ELog INFO "Fetching weather data for ZIP code: {zip_code}" [FStr "10001"];
          EHttpGet "https://api.openweathermap.org/data/2.5/weather"
            [("zip", "10001"); ("appid", "secret"); ("units", "metric")] 10]).
Proof. vm_compute. reflexivity. Qed.

(** ** The publisher *)

(** A backend that refuses the first submission it gets, after 100 ms, and
    accepts the following ones; the provider answers as in [answering]. *)
Definition refusing_first (status : Z) (body : pyval) : network :=
  Network (fun _ => (250%N, GetResponse (Response status (Some body))))
          (fun k => match k with
                    | O => (100%N, Some (OtherError "datadog.api.exceptions.ClientError"))
                    | S _ => (100%N, None)
                    end).

(** C3, amended.  When the first submission (temperature) raises, the
    second (humidity) is not attempted: the error is logged, nothing is
    raised, and the temperature submission is the only one issued. *)
Theorem first_failure_skips_second net t h api_key app_key w d e :
  send_reply net (sends w) = (d, Some e) ->
  exists w',
    submit_datadog_metrics net t h api_key app_key w = Return tt w' /\
    submissions w'
    = submissions w
      ++ [EMetricSend "environment.temperature.outside" [(now w ÷ 1000, t)] "gauge"] /\
    sends w' = S (sends w) /\
    List.filter is_error_log (trace w')
    = List.filter is_error_log (trace w) ++ [publish_failed e].
Proof.
  intros H1. eexists.
  split; [exact (publish_first_fails net t h api_key app_key w d e H1) |].
  split; [| split].
  - rewrite submissions_emit, submissions_submitted. simpl. now rewrite app_nil_r.
  - cbn [sends emit]. apply sends_submitted.
  - rewrite filter_trace_emit. simpl. f_equal.
    unfold submitted. rewrite filter_trace_advance by reflexivity.
    rewrite filter_trace_emit. simpl. now rewrite app_nil_r.
Qed.

Lemma first_failure_skips_second_witness :
  exists w',
    submit_datadog_metrics (refusing_first 200 mild_day)
      (PFloat 21.5) (PInt 63) "dd-api" "dd-app" fresh_world = Return tt w' /\
    submissions w'
    = submissions fresh_world
      ++ [EMetricSend "environment.temperature.outside"
            [(now fresh_world ÷ 1000, PFloat 21.5)] "gauge"] /\
    sends w' = S (sends fresh_world) /\
    List.filter is_error_log (trace w')
    = List.filter is_error_log (trace fresh_world)
      ++ [publish_failed (OtherError "datadog.api.exceptions.ClientError")].
Proof.
  apply (first_failure_skips_second (refusing_first 200 mild_day)
           (PFloat 21.5) (PInt 63) "dd-api" "dd-app" fresh_world 100%N
           (OtherError "datadog.api.exceptions.ClientError")).
  reflexivity.
Defined.

(** C3, as stated, fails: with a backend that refuses the first submission,
    no submission of [environment.humidity.outside] is ever issued. *)
Lemma second_not_attempted_after_failure :
  send_reply (refusing_first 200 mild_day) (sends fresh_world)
  = (100%N, Some (OtherError "datadog.api.exceptions.ClientError")) /\
  forall points type,
    ~ In (EMetricSend "environment.humidity.outside" points type)
         (trace (world_of
            (submit_datadog_metrics (refusing_first 200 mild_day)
               (PFloat 21.5) (PInt 63) "dd-api" "dd-app" fresh_world))).
Proof.
  split; [reflexivity |].
  intros points type Hin. vm_compute in Hin.
  destruct Hin as [Hin | [Hin | []]]; discriminate Hin.
Qed.

(** C5, amended.  For every reading, when the first submission does not
    fail, the publisher issues exactly two gauge submissions: first
    [environment.temperature.outside] with the temperature, then
    [environment.humidity.outside] with the humidity, each stamped with the
    whole second at which it is issued (the second one after the [d1]
    milliseconds the first took). *)
Theorem publisher_submits_both net t h api_key app_key w d1 :
  send_reply net (sends w) = (d1, None) ->
  exists w',
    submit_datadog_metrics net t h api_key app_key w = Return tt w' /\
    submissions w'
    = submissions w
      ++ [EMetricSend "environment.temperature.outside"
            [(now w ÷ 1000, t)] "gauge";
          EMetricSend "environment.humidity.outside"
            [((now w + Z.of_N d1) ÷ 1000, h)] "gauge"] /\
    sends w' = S (S (sends w)).
Proof.
  intros H1. destruct (send_reply net (S (sends w))) as [d2 o2] eqn:H2.
  eexists.
  split; [exact (publish_first_ok net t h api_key app_key w d1 d2 o2 H1 H2) |].
  split.
  - rewrite submissions_emit, submissions_submitted, submissions_emit,
      submissions_submitted.
    cbn [now emit]. rewrite now_submitted.
    assert (Hlast : is_metric_send
              match o2 with
              | Some e => publish_failed e
              | None => humidity_logged h
              end = false) by (destruct o2; reflexivity).
    rewrite Hlast. cbn [is_metric_send temperature_logged].
    rewrite !app_nil_r, <- app_assoc. reflexivity.
  - cbn [sends emit]. rewrite sends_submitted. cbn [sends emit].
    now rewrite sends_submitted.
Qed.

Lemma publisher_submits_both_witness :
  exists w',
    submit_datadog_metrics (answering 200 mild_day)
      (PFloat 21.5) (PInt 63) "dd-api" "dd-app" fresh_world = Return tt w' /\
    submissions w'
    = submissions fresh_world
      ++ [EMetricSend "environment.temperature.outside"
            [(now fresh_world ÷ 1000, PFloat 21.5)] "gauge";
          EMetricSend "environment.humidity.outside"
            [((now fresh_world + Z.of_N 100) ÷ 1000, PInt 63)] "gauge"] /\
    sends w' = S (S (sends fresh_world)).
Proof.
  apply (publisher_submits_both (answering 200 mild_day)
           (PFloat 21.5) (PInt 63) "dd-api" "dd-app" fresh_world 100%N).
  reflexivity.
Defined.

(** C5, as stated, fails: for the reading [(18, 40)] and a backend that
    refuses the first submission, the publisher issues one submission, not
    two. *)
Lemma one_submission_when_first_fails :
  submissions (world_of
    (submit_datadog_metrics (refusing_first 200 mild_day)
       (PInt 18) (PInt 40) "dd-api" "dd-app" fresh_world))
  = [EMetricSend "environment.temperature.outside" [(1700000000, PInt 18)] "gauge"].
Proof. vm_compute. reflexivity. Qed.

(** ** The loop *)

Lemma sleeps_emit_log lvl fmt args w : sleeps (emit (ELog lvl fmt args) w) = sleeps w.
Proof. unfold sleeps. rewrite filter_trace_emit. simpl. apply app_nil_r. Qed.

(** The segments add sleeps and handler lines to the trace, nothing else. *)
Lemma sleep_segments_filter (f : event -> bool) n :
  f handler_log = false -> f (ESleep 1) = false ->
  forall w w', sleep_segments n w = Return tt w' ->
  List.filter f (trace w') = List.filter f (trace w).
Proof.
  intros Hh Hs. induction n as [|n IH]; intros w w' Hrun.
  - simpl in Hrun. now injection Hrun as <-.
  - destruct (shutdown_flag w) eqn:Hf.
    + rewrite (sleep_segments_stop (S n) w Hf) in Hrun. now injection Hrun as <-.
    + rewrite (sleep_segments_step n w Hf) in Hrun.
      rewrite (IH _ _ Hrun). unfold slept.
      rewrite filter_trace_advance by exact Hh.
      rewrite filter_trace_emit, Hs. apply app_nil_r.
Qed.

(** C6.  The wait between two cycles is 300 segments of [time.sleep(1)],
    300 seconds in all, with the flag tested before each segment; a
    shutdown signal that arrives during the wait sets the flag, the wait
    ends less than one second after the signal, and the loop is left
    without another fetch. *)
Theorem wait_is_interruptible net c fuel w :
  shutdown_flag w = false ->
  exists w' k,
    wait_phase w = Return tt w' /\
    (k <= 300)%nat /\
    sleeps w' = sleeps w ++ repeat (ESleep 1) k /\
    now w' = now w + 1000 * Z.of_nat k /\
    (k = 300%nat \/ shutdown_flag w' = true) /\
    ((forall s, In s (pending w) -> now w + 300000 < s) ->
       k = 300%nat /\ shutdown_flag w' = false) /\
    (forall s, In s (pending w) -> now w < s <= now w + 300000 ->
       shutdown_flag w' = true /\
       now w' < s + 1000 /\
       main_loop net fuel c w' = Some (Return tt w') /\
       requests_made w' = requests_made w).
Proof.
  intros Hf. rewrite (wait_phase_eq w Hf).
  destruct (sleep_segments_spec 300 (emit waiting_logged w) Hf)
    as (w' & k & Hrun & Hk & Hnow & Hsl & Hend & Hsig & Hquiet).
  cbn [now pending emit] in Hnow, Hsig, Hquiet.
  change (1000 * Z.of_nat 300) with 300000 in Hsig, Hquiet.
  unfold waiting_logged in Hsl. rewrite sleeps_emit_log in Hsl.
  exists w', k.
  split; [exact Hrun |]. split; [exact Hk |]. split; [exact Hsl |].
  split; [exact Hnow |]. split; [exact Hend |]. split; [exact Hquiet |].
  intros s Hs Hrange. destruct (Hsig s Hs Hrange) as [Hset Hsoon].
  split; [exact Hset |]. split; [exact Hsoon |].
  split; [now apply main_loop_stop |].
  unfold requests_made.
  rewrite (sleep_segments_filter is_http_get 300 eq_refl eq_refl _ _ Hrun).
  rewrite filter_trace_emit. simpl. apply app_nil_r.
Qed.

(** A process about to wait, with a SIGTERM due 2.477 s later. *)
Definition about_to_wait : world := World 1700000000123 false [1700000002600] 1 2 [].

Lemma wait_is_interruptible_witness :
  shutdown_flag about_to_wait = false /\
  exists w' k,
    wait_phase about_to_wait = Return tt w' /\
    (k <= 300)%nat /\
    sleeps w' = sleeps about_to_wait ++ repeat (ESleep 1) k /\
    now w' = now about_to_wait + 1000 * Z.of_nat k /\
    (k = 300%nat \/ shutdown_flag w' = true) /\
    ((forall s, In s (pending about_to_wait) -> now about_to_wait + 300000 < s) ->
       k = 300%nat /\ shutdown_flag w' = false) /\
    (forall s, In s (pending about_to_wait) ->
       now about_to_wait < s <= now about_to_wait + 300000 ->
       shutdown_flag w' = true /\
       now w' < s + 1000 /\
       main_loop (answering 200 mild_day) 0 sample_config w' = Some (Return tt w') /\
       requests_made w' = requests_made about_to_wait).
Proof.
  split; [reflexivity |].
  apply (wait_is_interruptible (answering 200 mild_day) sample_config 0 about_to_wait).
  reflexivity.
Defined.

(** The run of that wait: three segments, the handler during the third,
    523 ms between the signal and the end of the wait. *)
Example wait_interrupted_in_third_segment :
  wait_phase about_to_wait
  = Return tt
      (World 1700000003123 true [] 1 2
         [ELog INFO "Waiting 15 seconds until next check..." [];
          ESleep 1; ESleep 1; ESleep 1;
          ELog INFO "Received shutdown signal, stopping..." []]).
Proof. vm_compute. reflexivity. Qed.

(** A fetch that returns [None] costs the cycle its submission, not the
    loop its next iteration. *)
Lemma loop_continues_after_fetch_error net c fuel w w1 :
  shutdown_flag w = false ->
  get_weather_data net (zip_code c) (openweather_api_key c) w = Return PNone w1 ->
  exists w2,
    wait_phase
      (emit (ELog WARNING
               "Skipping metric submission due to weather data fetch failure" []) w1)
    = Return tt w2 /\
    main_loop net (S fuel) c w = main_loop net fuel c w2.
Proof.
  intros Hf Hfetch.
  destruct (extends_wait_phase
              (emit (ELog WARNING
                 "Skipping metric submission due to weather data fetch failure" []) w1))
    as (w2 & Hwait & _).
  exists w2. split; [exact Hwait |].
  rewrite (main_loop_step net c fuel w Hf).
  unfold cycle, bind. rewrite Hfetch, publish_none, Hwait. reflexivity.
Qed.

(** The environment of a well-configured process. *)
Definition sample_environ : gmap string string :=
  <["OPENWEATHER_API_KEY" := "secret"]>
    (<["DATADOG_API_KEY" := "dd-api"]>
       (<["DATADOG_APP_KEY" := "dd-app"]>
          (<["ZIP_CODE" := "10001"]> ∅))).

Definition started : world :=
  World 1700000000123 false [] 0 0
    [ESignal SIGINT; ESignal SIGTERM; EInitialize "dd-api" "dd-app";
     ELog INFO "Datadog initialized successfully" [];
     ELog INFO "Starting weather monitoring service..." [];
     ELog INFO "Monitoring ZIP code: {zip_code}" [FStr "10001"];
     ELog INFO "Press Ctrl+C to stop" []].

(** C7.  A provider that answers [{"main": null}] with status 200: the
    [TypeError] of the first fetch leaves [get_weather_data], nothing in
    [main] catches it, and the loop ends with it in its first cycle: no
    warning logged, no wait, no second fetch, exit status 1. *)
Theorem fetch_failure_terminates_loop fuel :
  main (answering 200 (PDict (weather_body PNone))) (S fuel) sample_environ fresh_world
  = Some (Raise (Exc (TypeError "object is not subscriptable"))
            (World 1700000000373 false [] 1 0
               (trace started
                ++ [ELog INFO "Fetching weather data for ZIP code: {zip_code}"
                      [FStr "10001"];
                    EHttpGet "https://api.openweathermap.org/data/2.5/weather"
                      [("zip", "10001"); ("appid", "secret"); ("units", "metric")] 10])))
  /\ option_map exit_status
       (main (answering 200 (PDict (weather_body PNone))) (S fuel)
          sample_environ fresh_world)
     = Some 1.
Proof.
  match goal with |- ?A /\ _ => assert (Hmain : A) end;
    [| split; [exact Hmain | rewrite Hmain; reflexivity]].
  unfold main.
  assert (Hstart : startup sample_environ fresh_world = Return sample_config started)
    by (vm_compute; reflexivity).
  rewrite Hstart, main_loop_step by reflexivity.
  assert (Hcycle :
    cycle (answering 200 (PDict (weather_body PNone))) sample_config started
    = Raise (Exc (TypeError "object is not subscriptable"))
        (World 1700000000373 false [] 1 0
           (trace started
            ++ [ELog INFO "Fetching weather data for ZIP code: {zip_code}"
                  [FStr "10001"];
                EHttpGet "https://api.openweathermap.org/data/2.5/weather"
                  [("zip", "10001"); ("appid", "secret"); ("units", "metric")] 10])))
    by (vm_compute; reflexivity).
  rewrite Hcycle. reflexivity.
Qed.

(** ** Start-up *)

Lemma rejected_trace culprit w :
  trace (rejected culprit w)
  = trace w ++ [ESignal SIGINT; ESignal SIGTERM; required_logged culprit].
Proof. unfold rejected, emit. simpl. now rewrite <- !app_assoc. Qed.

(** What a refused start-up amounts to: exit status 1 after one error
    line, the clock and the call counters untouched, no network event. *)
Definition exits_before_network (r : option (result unit)) (w : world) : Prop :=
  exists culprit w',
    In culprit required_names /\
    r = Some (Raise (SystemExit 1) w') /\
    exit_status (Raise (SystemExit 1) w') = 1 /\
    trace w' = trace w ++ [ESignal SIGINT; ESignal SIGTERM; required_logged culprit] /\
    List.filter is_network (trace w') = List.filter is_network (trace w) /\
    gets w' = gets w /\ sends w' = sends w /\ now w' = now w.

Lemma falsy_variable_exits net fuel environ name w :
  In name required_names ->
  str_truthy (getenv environ name) = false ->
  exits_before_network (main net fuel environ w) w.
Proof.
  intros Hin Hfalse.
  destruct (main_rejects net fuel environ name w Hin Hfalse) as (culprit & Hc & Hrun).
  exists culprit, (rejected culprit w).
  split; [exact Hc |]. split; [exact Hrun |]. split; [reflexivity |].
  split; [apply rejected_trace |].
  split; [| repeat split].
  rewrite rejected_trace, List.filter_app. simpl. apply app_nil_r.
Qed.

(** C8.  When any of [OPENWEATHER_API_KEY], [DATADOG_API_KEY],
    [DATADOG_APP_KEY] and [ZIP_CODE] is absent from the environment, [main]
    logs an error and exits with status 1 before any network call: no
    fetch, no Datadog initialisation, no submission. *)
Theorem missing_variable_exits net fuel environ name w :
  In name required_names ->
  environ !! name = None ->
  exits_before_network (main net fuel environ w) w.
Proof.
  intros Hin Habsent. apply (falsy_variable_exits net fuel environ name w Hin).
  unfold getenv. now rewrite Habsent.
Qed.

Lemma missing_variable_exits_witness :
  delete "ZIP_CODE" sample_environ !! "ZIP_CODE" = None /\
  exits_before_network
    (main (answering 200 mild_day) 3 (delete "ZIP_CODE" sample_environ) fresh_world)
    fresh_world.
Proof.
  split; [vm_compute; reflexivity |].
  apply (missing_variable_exits (answering 200 mild_day) 3
           (delete "ZIP_CODE" sample_environ) "ZIP_CODE" fresh_world).
  - simpl. auto.
  - vm_compute. reflexivity.
Defined.

Lemma require_env_empty_as_absent environ name n :
  environ !! name = Some EmptyString ->
  require_env n (getenv environ n) = require_env n (getenv (delete name environ) n).
Proof.
  intros Hempty. unfold getenv.
  destruct (decide (name = n)) as [<- | Hne].
  - rewrite Hempty, lookup_delete_eq. reflexivity.
  - now rewrite lookup_delete_ne.
Qed.

(** C9.  A required variable that is set to the empty string is treated as
    an absent one: the test is the truth value of what [os.getenv] returns,
    so [main] logs an error and exits with status 1, exactly as it does in
    the environment without that variable. *)
Theorem empty_variable_exits net fuel environ name w :
  In name required_names ->
  environ !! name = Some EmptyString ->
  exits_before_network (main net fuel environ w) w /\
  main net fuel environ w = main net fuel (delete name environ) w.
Proof.
  intros Hin Hempty. split.
  - apply (falsy_variable_exits net fuel environ name w Hin).
    unfold getenv. now rewrite Hempty.
  - unfold main, startup.
    now rewrite !(require_env_empty_as_absent environ name _ Hempty).
Qed.

Lemma empty_variable_exits_witness :
  <["DATADOG_APP_KEY" := EmptyString]> sample_environ !! "DATADOG_APP_KEY"
  = Some EmptyString /\
  exits_before_network
    (main (answering 200 mild_day) 3
       (<["DATADOG_APP_KEY" := EmptyString]> sample_environ) fresh_world)
    fresh_world /\
  main (answering 200 mild_day) 3
    (<["DATADOG_APP_KEY" := EmptyString]> sample_environ) fresh_world
  = main (answering 200 mild_day) 3
      (delete "DATADOG_APP_KEY" (<["DATADOG_APP_KEY" := EmptyString]> sample_environ))
      fresh_world.
Proof.
  split; [vm_compute; reflexivity |].
  apply (empty_variable_exits (answering 200 mild_day) 3
           (<["DATADOG_APP_KEY" := EmptyString]> sample_environ)
           "DATADOG_APP_KEY" fresh_world).
  - simpl. auto.
  - vm_compute. reflexivity.
Defined.

(** * Further properties of the code *)

(** ** How a call changes the world *)

(** [evolves w w']: [w'] is [w] after some more effects.  The program
    changes the world in four ways only: it appends an event, it counts a
    call, and it blocks for a while. *)
Inductive evolves (w : world) : world -> Prop :=
| evolves_refl : evolves w w
| evolves_emit e w' : evolves w w' -> evolves w (emit e w')
| evolves_bump_gets w' : evolves w w' -> evolves w (bump_gets w')
| evolves_bump_sends w' : evolves w w' -> evolves w (bump_sends w')
| evolves_advance d w' : 0 <= d -> evolves w w' -> evolves w (advance d w').

Lemma evolves_trans w1 w2 w3 : evolves w1 w2 -> evolves w2 w3 -> evolves w1 w3.
Proof.
  intros H12 H23. induction H23.
  - exact H12.
  - now apply evolves_emit.
  - now apply evolves_bump_gets.
  - now apply evolves_bump_sends.
  - now apply evolves_advance.
Qed.

Lemma evolves_requested zip key d w : evolves w (requested zip key d w).
Proof.
  unfold requested. apply evolves_advance; [lia |].
  apply evolves_emit, evolves_bump_gets, evolves_emit, evolves_refl.
Qed.

Lemma evolves_submitted metric v d w : evolves w (submitted metric v d w).
Proof.
  unfold submitted. apply evolves_advance; [lia |].
  apply evolves_emit, evolves_bump_sends, evolves_refl.
Qed.

Lemma evolves_slept w : evolves w (slept w).
Proof. unfold slept. apply evolves_advance; [lia |]. apply evolves_emit, evolves_refl. Qed.

(** The clock never runs backwards. *)
Lemma evolves_now w w' : evolves w w' -> now w <= now w'.
Proof.
  induction 1; try assumption; [lia |].
  rewrite now_advance. lia.
Qed.

(** Nothing but the handler writes the flag, and the handler only sets it. *)
Lemma evolves_flag_set w w' :
  evolves w w' -> shutdown_flag w = true -> shutdown_flag w' = true.
Proof.
  induction 1; intros Hf; auto.
  rewrite flag_advance, IHevolves by exact Hf. reflexivity.
Qed.



Lemma evolves_extends w w' : evolves w w' -> extends w w'.
Proof.
  induction 1.
  - apply extends_refl.
  - eapply extends_trans; [eassumption | apply extends_emit].
  - eapply extends_trans; [eassumption | exists []; simpl; now rewrite app_nil_r].
  - eapply extends_trans; [eassumption | exists []; simpl; now rewrite app_nil_r].
  - eapply extends_trans; [eassumption | apply extends_advance].
Qed.

Lemma evolves_gets w w' : evolves w w' -> (gets w <= gets w')%nat.
Proof.
  induction 1; simpl; try lia.
  rewrite gets_advance. lia.
Qed.

Lemma evolves_sends w w' : evolves w w' -> (sends w <= sends w')%nat.
Proof.
  induction 1; simpl; try lia.
  rewrite sends_advance. lia.
Qed.

(** ** Every outcome of [get_weather_data] *)

Definition fetch_failed_logged (e : exn) : event :=
  ELog ERROR "Error fetching weather data: {e}" [FExn e].

Definition bad_format_logged (e : exn) : event :=
  ELog ERROR "Unexpected response format from OpenWeather API: {e}" [FExn e].

Definition received_logged (t h : pyval) : event :=
  ELog INFO "Received weather data - Temperature: {temperature}°F, Humidity: {humidity}%"
    [FVal t; FVal h].

(** The three ways a call can end, [W] being the world when the request
    came back: [None] after one error line, a reading after one info line,
    or a [TypeError] with nothing logged. *)
Inductive fetch_outcome (W : world) : result pyval -> Prop :=
| fetch_none_request e :
    fetch_outcome W (Return PNone (emit (fetch_failed_logged (Exc (RequestException e))) W))
| fetch_none_key k :
    fetch_outcome W (Return PNone (emit (bad_format_logged (Exc (KeyError k))) W))
| fetch_some t h :
    fetch_outcome W (Return (reading t h) (emit (received_logged t h) W))
| fetch_type_error msg :
    fetch_outcome W (Raise (Exc (TypeError msg)) W).

Lemma fetch_outcomes net zip key w :
  fetch_outcome (requested zip key (fst (http_reply net (gets w))) w)
    (get_weather_data net zip key w).
Proof.
  destruct (http_reply net (gets w)) as [d out] eqn:Hreply. simpl.
  destruct out as [t | r].
  { rewrite (fetch_transport_error net zip key w d t Hreply). constructor. }
  destruct (is_error_status (status_code r)) eqn:Hs.
  { rewrite (fetch_http_error net zip key w d r Hreply Hs). constructor. }
  destruct (json_body r) as [v |] eqn:Hj.
  2: { rewrite (fetch_not_json net zip key w d r Hreply Hs Hj). constructor. }
  destruct (is_dict v) eqn:Hv.
  2: { destruct (fetch_body_not_dict net zip key w d r v Hreply Hs Hj Hv) as [msg ->].
       constructor. }
  destruct v as [| | | | | | body]; try discriminate Hv.
  destruct (body !! "main") as [mv |] eqn:Hm.
  2: { rewrite (fetch_no_main net zip key w d r body Hreply Hs Hj Hm). constructor. }
  destruct (is_dict mv) eqn:Hmv.
  2: { destruct (fetch_main_not_dict net zip key w d r body mv Hreply Hs Hj Hm Hmv)
         as [msg ->]. constructor. }
  destruct mv as [| | | | | | m]; try discriminate Hmv.
  destruct (m !! "temp") as [t |] eqn:Ht.
  2: { rewrite (fetch_no_temp net zip key w d r body m Hreply Hs Hj Hm Ht). constructor. }
  destruct (m !! "humidity") as [h |] eqn:Hh.
  2: { rewrite (fetch_no_humidity net zip key w d r body m t Hreply Hs Hj Hm Ht Hh).
       constructor. }
  rewrite (fetch_reading net zip key w d r body m t h Hreply Hs Hj Hm Ht Hh).
  constructor.
Qed.

Lemma evolves_sleep_segments n : forall w w',
  sleep_segments n w = Return tt w' -> evolves w w'.
Proof.
  induction n as [|n IH]; intros w w' Hrun.
  - simpl in Hrun. injection Hrun as <-. apply evolves_refl.
  - destruct (shutdown_flag w) eqn:Hf.
    + rewrite (sleep_segments_stop (S n) w Hf) in Hrun. injection Hrun as <-.
      apply evolves_refl.
    + rewrite (sleep_segments_step n w Hf) in Hrun.
      eapply evolves_trans; [apply evolves_slept | exact (IH _ _ Hrun)].
Qed.

(** The wait always returns; if the flag is still clear at its end, the
    full 300 seconds have passed. *)
Lemma wait_outcomes w :
  exists w',
    wait_phase w = Return tt w' /\
    evolves w w' /\
    (shutdown_flag w' = false -> now w' = now w + 300000) /\
    (forall f, f handler_log = false -> f (ESleep 1) = false ->
               f waiting_logged = false ->
               List.filter f (trace w') = List.filter f (trace w)).
Proof.
  destruct (shutdown_flag w) eqn:Hf.
  - exists w. unfold wait_phase. rewrite Hf. simpl.
    split; [reflexivity |]. split; [apply evolves_refl |].
    split; [congruence | reflexivity].
  - rewrite (wait_phase_eq w Hf).
    destruct (sleep_segments_spec 300 (emit waiting_logged w) Hf)
      as (w' & k & Hrun & _ & Hnow & _ & Hend & _ & _).
    exists w'. split; [exact Hrun |].
    split; [eapply evolves_trans;
            [apply evolves_emit, evolves_refl | exact (evolves_sleep_segments _ _ _ Hrun)] |].
    split.
    + intros Hf'. destruct Hend as [-> | Hset]; [| congruence].
      rewrite Hnow. simpl. lia.
    + intros f Hh Hs Hw.
      rewrite (sleep_segments_filter f 300 Hh Hs _ _ Hrun).
      rewrite filter_trace_emit, Hw. apply app_nil_r.
Qed.

Lemma filter_trace_submitted (f : event -> bool) metric v d w :
  f handler_log = false ->
  List.filter f (trace (submitted metric v d w))
  = List.filter f (trace w)
    ++ (if f (EMetricSend metric [(now w ÷ 1000, v)] "gauge")
        then [EMetricSend metric [(now w ÷ 1000, v)] "gauge"] else []).
Proof.
  intros Hf. unfold submitted. rewrite filter_trace_advance by exact Hf.
  now rewrite filter_trace_emit.
Qed.

(** The publisher always returns, after one or two submissions. *)
Lemma publish_outcomes net t h dk ak w :
  exists w' rest,
    submit_datadog_metrics net t h dk ak w = Return tt w' /\
    evolves w w' /\
    submissions w'
    = submissions w
      ++ EMetricSend "environment.temperature.outside" [(now w ÷ 1000, t)] "gauge"
         :: rest /\
    (rest = [] \/
     exists ts, rest = [EMetricSend "environment.humidity.outside" [(ts, h)] "gauge"]) /\
    requests_made w' = requests_made w /\
    sleeps w' = sleeps w.
Proof.
  destruct (send_reply net (sends w)) as [d1 [e|]] eqn:H1.
  - eexists. exists [].
    split; [exact (publish_first_fails net t h dk ak w d1 e H1) |].
    split; [apply evolves_emit, evolves_submitted |].
    split; [rewrite submissions_emit, submissions_submitted; simpl;
            now rewrite app_nil_r |].
    split; [now left |].
    unfold requests_made, sleeps.
    rewrite !filter_trace_emit, !filter_trace_submitted by reflexivity.
    simpl. now rewrite !app_nil_r.
  - destruct (send_reply net (S (sends w))) as [d2 o2] eqn:H2.
    eexists. eexists.
    split; [exact (publish_first_ok net t h dk ak w d1 d2 o2 H1 H2) |].
    split; [apply evolves_emit;
            eapply evolves_trans; [| apply evolves_submitted];
            apply evolves_emit, evolves_submitted |].
    assert (Hlast : forall f : event -> bool,
              (forall lvl fmt args, f (ELog lvl fmt args) = false) ->
              f match o2 with
                | Some e => publish_failed e
                | None => humidity_logged h
                end = false) by (intros f Hf; destruct o2; apply Hf).
    split; [| split; [right; eexists; reflexivity |]].
    + rewrite submissions_emit, submissions_submitted, submissions_emit,
        submissions_submitted.
      rewrite (Hlast is_metric_send) by reflexivity.
      cbn [is_metric_send temperature_logged].
      rewrite !app_nil_r, <- app_assoc. reflexivity.
    + unfold requests_made, sleeps.
      rewrite !filter_trace_emit, !filter_trace_submitted, !filter_trace_emit,
        !filter_trace_submitted by reflexivity.
      rewrite (Hlast is_http_get), (Hlast is_sleep) by reflexivity.
      simpl. now rewrite !app_nil_r.
Qed.

(** ** Every outcome of a cycle *)

Definition weather_request (zip key : string) : event :=
  EHttpGet "https://api.openweathermap.org/data/2.5/weather"
    [("zip", zip); ("appid", key); ("units", "metric")] 10.

Lemma filter_trace_requested (f : event -> bool) zip key d w :
  (forall lvl fmt args, f (ELog lvl fmt args) = false) ->
  List.filter f (trace (requested zip key d w))
  = List.filter f (trace w)
    ++ (if f (weather_request zip key) then [weather_request zip key] else []).
Proof.
  intros Hf. unfold requested. rewrite filter_trace_advance by apply Hf.
  rewrite filter_trace_emit. cbn [trace bump_gets].
  rewrite filter_trace_emit, Hf. now rewrite app_nil_r.
Qed.

(** The effects of one call of [get_weather_data], whatever its outcome:
    one request, no submission, no sleep. *)
Lemma fetch_effects net zip key w :
  let W := requested zip key (fst (http_reply net (gets w))) w in
  let w' := world_of (get_weather_data net zip key w) in
  evolves W w' /\
  requests_made w' = requests_made w ++ [weather_request zip key] /\
  submissions w' = submissions w /\
  sleeps w' = sleeps w /\
  gets w' = S (gets w) /\
  sends w' = sends w.
Proof.
  intros W w'. subst w'.
  assert (HW : requests_made W = requests_made w ++ [weather_request zip key] /\
               submissions W = submissions w /\ sleeps W = sleeps w /\
               gets W = S (gets w) /\ sends W = sends w).
  { subst W. unfold requests_made, submissions, sleeps.
    rewrite !filter_trace_requested by reflexivity. simpl.
    rewrite !app_nil_r. unfold requested.
    rewrite gets_advance, sends_advance. simpl. repeat split. }
  destruct HW as (Hr & Hsub & Hsl & Hg & Hsd).
  destruct (fetch_outcomes net zip key w); fold W; cbn [world_of];
    try (split; [apply evolves_emit, evolves_refl |];
         unfold requests_made, submissions, sleeps in *;
         rewrite !filter_trace_emit; simpl; rewrite !app_nil_r;
         repeat split; assumption).
  split; [apply evolves_refl |]. repeat split; assumption.
Qed.

Lemma cycle_outcomes net c w :
  let W := requested (zip_code c) (openweather_api_key c)
             (fst (http_reply net (gets w))) w in
  (exists msg, cycle net c w = Raise (Exc (TypeError msg)) W) \/
  (exists w',
     cycle net c w = Return tt w' /\
     evolves W w' /\
     (shutdown_flag w' = false -> now w + 300000 <= now w') /\
     requests_made w'
     = requests_made w ++ [weather_request (zip_code c) (openweather_api_key c)] /\
     exists subs,
       submissions w' = submissions w ++ subs /\ (length subs <= 2)%nat).
Proof.
  intros W.
  pose proof (fetch_effects net (zip_code c) (openweather_api_key c) w) as Heff.
  cbv zeta in Heff. fold W in Heff.
  destruct Heff as (_ & Hreq & Hsub & _).
  pose proof (evolves_now _ _ (evolves_requested (zip_code c) (openweather_api_key c)
                (fst (http_reply net (gets w))) w)) as HnowW. fold W in HnowW.
  unfold cycle, bind.
  destruct (fetch_outcomes net (zip_code c) (openweather_api_key c) w)
    as [e | k | t h | msg]; fold W in Hreq, Hsub |- *; cbn [world_of] in Hreq, Hsub.
  - right. rewrite publish_none.
    match goal with |- context [wait_phase ?w1] =>
      destruct (wait_outcomes w1) as (w' & -> & Hev & Hlong & Hfilter) end.
    exists w'. split; [reflexivity |].
    split; [eapply evolves_trans; [| exact Hev]; do 2 apply evolves_emit; apply evolves_refl |].
    split; [intros Hf; rewrite (Hlong Hf); simpl; lia |].
    split.
    + unfold requests_made in *. rewrite Hfilter by reflexivity.
      rewrite filter_trace_emit. simpl. rewrite app_nil_r. exact Hreq.
    + exists []. rewrite app_nil_r. split; [| simpl; lia].
      unfold submissions in *. rewrite Hfilter by reflexivity.
      rewrite filter_trace_emit. simpl. rewrite app_nil_r. exact Hsub.
  - right. rewrite publish_none.
    match goal with |- context [wait_phase ?w1] =>
      destruct (wait_outcomes w1) as (w' & -> & Hev & Hlong & Hfilter) end.
    exists w'. split; [reflexivity |].
    split; [eapply evolves_trans; [| exact Hev]; do 2 apply evolves_emit; apply evolves_refl |].
    split; [intros Hf; rewrite (Hlong Hf); simpl; lia |].
    split.
    + unfold requests_made in *. rewrite Hfilter by reflexivity.
      rewrite filter_trace_emit. simpl. rewrite app_nil_r. exact Hreq.
    + exists []. rewrite app_nil_r. split; [| simpl; lia].
      unfold submissions in *. rewrite Hfilter by reflexivity.
      rewrite filter_trace_emit. simpl. rewrite app_nil_r. exact Hsub.
  - right. rewrite publish_reading.
    match goal with |- context [submit_datadog_metrics net t h ?dk ?ak ?w1] =>
      destruct (publish_outcomes net t h dk ak w1)
        as (w2 & rest & -> & Hev2 & Hsubs2 & Hrest & Hreq2 & _) end.
    destruct (wait_outcomes w2) as (w' & -> & Hev & Hlong & Hfilter).
    exists w'. split; [reflexivity |].
    split; [eapply evolves_trans; [| exact Hev];
            eapply evolves_trans; [| exact Hev2]; apply evolves_emit, evolves_refl |].
    split.
    + intros Hf. rewrite (Hlong Hf).
      pose proof (evolves_now _ _ Hev2) as Hn. simpl in Hn. lia.
    + split.
      * unfold requests_made in *. rewrite Hfilter by reflexivity.
        rewrite Hreq2. exact Hreq.
      * eexists. split.
        -- unfold submissions in *. rewrite Hfilter by reflexivity.
           rewrite Hsubs2, Hsub. reflexivity.
        -- destruct Hrest as [-> | [ts ->]]; simpl; lia.
  - left. exists msg. reflexivity.
Qed.

(** ** More on the fetcher *)

(** X1.  Every call of [get_weather_data], whatever its outcome, performs
    exactly one GET of the current-weather URL with the parameters [zip],
    [appid] and [units=metric] and a timeout of 10 seconds; it never retries,
    never submits a metric and never sleeps. *)
Theorem fetch_makes_one_request net zip key w :
  requests_made (world_of (get_weather_data net zip key w))
  = requests_made w
    ++ [EHttpGet "https://api.openweathermap.org/data/2.5/weather"
          [("zip", zip); ("appid", key); ("units", "metric")] 10] /\
  gets (world_of (get_weather_data net zip key w)) = S (gets w) /\
  submissions (world_of (get_weather_data net zip key w)) = submissions w /\
  sends (world_of (get_weather_data net zip key w)) = sends w /\
  sleeps (world_of (get_weather_data net zip key w)) = sleeps w.
Proof.
  destruct (fetch_effects net zip key w) as (_ & Hr & Hsub & Hsl & Hg & Hsd).
  repeat split; assumption.
Qed.

Definition error_lines (w : world) : list event :=
  List.filter is_error_log (trace w).



(** The world [get_weather_data] leaves when the provider answers 404
    after 250 ms. *)
Definition refused_404 : world :=
  emit (fetch_failed_logged (Exc (RequestException (HTTPError 404))))
    (requested "10001" "secret" 250 fresh_world).





(** X4.  A failure of the transport ([requests.get] raising a connection
    error, a timeout or too many redirects) and a body that is not JSON are
    both answered by [None], with one ERROR line that carries the
    exception; no exception leaves the function. *)
Theorem fetch_error_on_network_failure net zip key w d :
  (exists t, http_reply net (gets w) = (d, GetRaises t)) \/
  (exists r, http_reply net (gets w) = (d, GetResponse r) /\
             is_error_status (status_code r) = false /\ json_body r = None) ->
  exists e,
    get_weather_data net zip key w
    = Return PNone
        (emit (fetch_failed_logged (Exc (RequestException e)))
           (requested zip key d w)) /\
    (e = JSONDecodeError \/ exists t, e = Transport t).
Proof.
  intros [[t Hreply] | (r & Hreply & Hs & Hj)].
  - exists (Transport t).
    split; [exact (fetch_transport_error net zip key w d t Hreply) | right; now exists t].
  - exists JSONDecodeError.
    split; [exact (fetch_not_json net zip key w d r Hreply Hs Hj) | now left].
Qed.

(** A provider that cannot be reached: every request times out after the
    10 seconds allowed. *)
Definition unreachable : network :=
  Network (fun _ => (10000%N, GetRaises Timeout)) (fun _ => (100%N, None)).

Lemma fetch_error_on_network_failure_witness :
  exists e,
    get_weather_data unreachable "10001" "secret" fresh_world
    = Return PNone
        (emit (fetch_failed_logged (Exc (RequestException e)))
           (requested "10001" "secret" 10000 fresh_world)) /\
    (e = JSONDecodeError \/ exists t, e = Transport t).
Proof.
  apply (fetch_error_on_network_failure unreachable "10001" "secret" fresh_world 10000%N).
  left. exists Timeout. reflexivity.
Defined.

(** ** More on the publisher *)

(** X5.  [submit_datadog_metrics] never raises: whatever the backend
    does, it returns, having issued the temperature submission first and
    at most the humidity submission after it, no request and no sleep. *)
Theorem publisher_never_raises net t h api_key app_key w :
  exists w' rest,
    submit_datadog_metrics net t h api_key app_key w = Return tt w' /\
    submissions w'
    = submissions w
      ++ EMetricSend "environment.temperature.outside" [(now w ÷ 1000, t)] "gauge"
         :: rest /\
    (rest = [] \/
     exists ts, rest = [EMetricSend "environment.humidity.outside" [(ts, h)] "gauge"]) /\
    requests_made w' = requests_made w /\
    sleeps w' = sleeps w.
Proof.
  destruct (publish_outcomes net t h api_key app_key w)
    as (w' & rest & Hrun & _ & Hsubs & Hrest & Hreq & Hsl).
  exists w', rest. repeat split; assumption.
Qed.

(** X6.  When the first submission is accepted and the second raises,
    both have been issued, in this order: the temperature stays submitted
    (no rollback) and its INFO line logged, and the error of the second is
    logged once and swallowed. *)
Theorem second_failure_keeps_first net t h api_key app_key w d1 d2 e :
  send_reply net (sends w) = (d1, None) ->
  send_reply net (S (sends w)) = (d2, Some e) ->
  exists w',
    submit_datadog_metrics net t h api_key app_key w = Return tt w' /\
    submissions w'
    = submissions w
      ++ [EMetricSend "environment.temperature.outside"
            [(now w ÷ 1000, t)] "gauge";
          EMetricSend "environment.humidity.outside"
            [((now w + Z.of_N d1) ÷ 1000, h)] "gauge"] /\
    error_lines w' = error_lines w ++ [publish_failed e] /\
    In (temperature_logged t) (trace w').
Proof.
  intros H1 H2. eexists.
  split; [exact (publish_first_ok net t h api_key app_key w d1 d2 (Some e) H1 H2) |].
  split; [| split].
  - rewrite submissions_emit, submissions_submitted, submissions_emit,
      submissions_submitted.
    cbn [now emit is_metric_send publish_failed temperature_logged].
    rewrite now_submitted, !app_nil_r, <- app_assoc. reflexivity.
  - unfold error_lines.
    rewrite filter_trace_emit, filter_trace_submitted, filter_trace_emit,
      filter_trace_submitted by reflexivity.
    simpl. now rewrite !app_nil_r.
  - eapply extends_In; [apply extends_emit |].
    eapply extends_In; [apply extends_submitted |].
    unfold emit. simpl. apply in_or_app. right. now left.
Qed.

(** A backend that accepts the first submission and refuses the second. *)
Definition refusing_second : network :=
  Network (fun _ => (250%N, GetResponse (Response 200 (Some mild_day))))
          (fun k => match k with
                    | 1%nat => (100%N, Some (OtherError "datadog.api.exceptions.HttpTimeout"))
                    | _ => (100%N, None)
                    end).

Lemma second_failure_keeps_first_witness :
  exists w',
    submit_datadog_metrics refusing_second (PFloat 21.5) (PInt 63)
      "dd-api" "dd-app" fresh_world = Return tt w' /\
    submissions w'
    = submissions fresh_world
      ++ [EMetricSend "environment.temperature.outside"
            [(now fresh_world ÷ 1000, PFloat 21.5)] "gauge";
          EMetricSend "environment.humidity.outside"
            [((now fresh_world + Z.of_N 100) ÷ 1000, PInt 63)] "gauge"] /\
    error_lines w'
    = error_lines fresh_world
      ++ [publish_failed (OtherError "datadog.api.exceptions.HttpTimeout")] /\
    In (temperature_logged (PFloat 21.5)) (trace w').
Proof.
  apply (second_failure_keeps_first refusing_second (PFloat 21.5) (PInt 63)
           "dd-api" "dd-app" fresh_world 100%N 100%N
           (OtherError "datadog.api.exceptions.HttpTimeout"));
    reflexivity.
Defined.

(** ** More on the start-up *)

(** The first required variable, in the order [main] tests them, whose
    value is absent or empty. *)
Definition first_missing (environ : gmap string string) : option string :=
  List.find (fun name => negb (str_truthy (getenv environ name))) required_names.

Definition stopped_logged : event :=
  ELog INFO "Weather monitoring service stopped" [].

(** The world [main] enters its loop in. *)
Definition initialized (cfg : config) (w : world) : world :=
  emit (ELog INFO "Press Ctrl+C to stop" [])
    (emit (ELog INFO "Monitoring ZIP code: {zip_code}" [FStr (zip_code cfg)])
       (emit (ELog INFO "Starting weather monitoring service..." [])
          (emit (ELog INFO "Datadog initialized successfully" [])
             (emit (EInitialize (datadog_api_key cfg) (datadog_app_key cfg))
                (emit (ESignal SIGTERM) (emit (ESignal SIGINT) w)))))).

Lemma startup_first_missing environ w culprit :
  first_missing environ = Some culprit ->
  startup environ w = Raise (SystemExit 1) (rejected culprit w).
Proof.
  unfold first_missing, required_names. cbn [List.find].
  intros Hfind. unfold startup, bind, signal_signal.
  set (w0 := emit (ESignal SIGTERM) (emit (ESignal SIGINT) w)).
  step_required "OPENWEATHER_API_KEY" (getenv environ "OPENWEATHER_API_KEY") w0;
    cbn [negb] in Hfind; [| now injection Hfind as <-].
  step_required "DATADOG_API_KEY" (getenv environ "DATADOG_API_KEY") w0;
    cbn [negb] in Hfind; [| now injection Hfind as <-].
  step_required "DATADOG_APP_KEY" (getenv environ "DATADOG_APP_KEY") w0;
    cbn [negb] in Hfind; [| now injection Hfind as <-].
  step_required "ZIP_CODE" (getenv environ "ZIP_CODE") w0;
    cbn [negb] in Hfind; [| now injection Hfind as <-].
  discriminate Hfind.
Qed.

Lemma startup_complete environ w :
  first_missing environ = None ->
  exists ok dk ak z,
    environ !! "OPENWEATHER_API_KEY" = Some ok /\
    environ !! "DATADOG_API_KEY" = Some dk /\
    environ !! "DATADOG_APP_KEY" = Some ak /\
    environ !! "ZIP_CODE" = Some z /\
    startup environ w = Return (Config ok dk ak z) (initialized (Config ok dk ak z) w).
Proof.
  unfold first_missing, required_names. cbn [List.find].
  intros Hfind. unfold startup, bind, signal_signal.
  set (w0 := emit (ESignal SIGTERM) (emit (ESignal SIGINT) w)).
  step_required "OPENWEATHER_API_KEY" (getenv environ "OPENWEATHER_API_KEY") w0;
    cbn [negb] in Hfind; [| discriminate Hfind].
  step_required "DATADOG_API_KEY" (getenv environ "DATADOG_API_KEY") w0;
    cbn [negb] in Hfind; [| discriminate Hfind].
  step_required "DATADOG_APP_KEY" (getenv environ "DATADOG_APP_KEY") w0;
    cbn [negb] in Hfind; [| discriminate Hfind].
  step_required "ZIP_CODE" (getenv environ "ZIP_CODE") w0;
    cbn [negb] in Hfind; [| discriminate Hfind].
  exists s, s0, s1, s2. unfold getenv in *. repeat (split; [assumption |]).
  reflexivity.
Qed.

(** X7.  [main] tests the four variables in a fixed order
    (OPENWEATHER_API_KEY, DATADOG_API_KEY, DATADOG_APP_KEY, ZIP_CODE) and
    stops at the first one that is absent or empty: that one alone is
    named in the single ERROR line, however many others are missing. *)
Theorem main_reports_first_missing net fuel environ w culprit :
  first_missing environ = Some culprit ->
  main net fuel environ w = Some (Raise (SystemExit 1) (rejected culprit w)) /\
  error_lines (rejected culprit w)
  = error_lines w
    ++ [ELog ERROR (culprit +:+ " environment variable is required") []].
Proof.
  intros Hfind. split.
  - unfold main. now rewrite (startup_first_missing environ w culprit Hfind).
  - unfold error_lines. rewrite rejected_trace, List.filter_app. reflexivity.
Qed.

(** An environment with only the OpenWeather key and the Datadog
    application key. *)
Definition half_configured : gmap string string :=
  <["OPENWEATHER_API_KEY" := "secret"]> (<["DATADOG_APP_KEY" := "dd-app"]> ∅).

Lemma main_reports_first_missing_witness :
  first_missing half_configured = Some "DATADOG_API_KEY" /\
  main unreachable 3 half_configured fresh_world
  = Some (Raise (SystemExit 1) (rejected "DATADOG_API_KEY" fresh_world)) /\
  error_lines (rejected "DATADOG_API_KEY" fresh_world)
  = error_lines fresh_world
    ++ [ELog ERROR ("DATADOG_API_KEY" +:+ " environment variable is required") []].
Proof.
  split; [vm_compute; reflexivity |].
  apply (main_reports_first_missing unreachable 3 half_configured fresh_world).
  vm_compute. reflexivity.
Defined.

(** X8.  With the four variables set and non-empty, the start-up
    registers the handler for SIGINT and SIGTERM, initialises Datadog once,
    with the values of DATADOG_API_KEY and DATADOG_APP_KEY, and hands the
    loop the values of the environment; it makes no request, and leaves the
    clock and the flag as they were. *)
Theorem startup_reads_environment environ w :
  first_missing environ = None ->
  exists cfg w',
    startup environ w = Return cfg w' /\
    environ !! "OPENWEATHER_API_KEY" = Some (openweather_api_key cfg) /\
    environ !! "DATADOG_API_KEY" = Some (datadog_api_key cfg) /\
    environ !! "DATADOG_APP_KEY" = Some (datadog_app_key cfg) /\
    environ !! "ZIP_CODE" = Some (zip_code cfg) /\
    List.filter is_network (trace w')
    = List.filter is_network (trace w)
      ++ [EInitialize (datadog_api_key cfg) (datadog_app_key cfg)] /\
    In (ESignal SIGINT) (trace w') /\ In (ESignal SIGTERM) (trace w') /\
    now w' = now w /\ shutdown_flag w' = shutdown_flag w /\ pending w' = pending w.
Proof.
  intros Hfind.
  destruct (startup_complete environ w Hfind) as (ok & dk & ak & z & H1 & H2 & H3 & H4 & Hrun).
  exists (Config ok dk ak z), (initialized (Config ok dk ak z) w).
  split; [exact Hrun |]. repeat (split; [assumption |]).
  split.
  - unfold initialized. rewrite !filter_trace_emit. simpl. now rewrite !app_nil_r.
  - assert (Htrace : trace (initialized (Config ok dk ak z) w)
                     = trace w
                       ++ [ESignal SIGINT; ESignal SIGTERM; EInitialize dk ak;
                           ELog INFO "Datadog initialized successfully" [];
                           ELog INFO "Starting weather monitoring service..." [];
                           ELog INFO "Monitoring ZIP code: {zip_code}" [FStr z];
                           ELog INFO "Press Ctrl+C to stop" []]).
    { unfold initialized, emit. simpl. now rewrite <- !app_assoc. }
    rewrite Htrace.
    split; [apply in_or_app; right; simpl; tauto |].
    split; [apply in_or_app; right; simpl; tauto |].
    repeat split.
Qed.

Lemma startup_reads_environment_witness :
  first_missing sample_environ = None /\
  exists cfg w',
    startup sample_environ fresh_world = Return cfg w' /\
    sample_environ !! "OPENWEATHER_API_KEY" = Some (openweather_api_key cfg) /\
    sample_environ !! "DATADOG_API_KEY" = Some (datadog_api_key cfg) /\
    sample_environ !! "DATADOG_APP_KEY" = Some (datadog_app_key cfg) /\
    sample_environ !! "ZIP_CODE" = Some (zip_code cfg) /\
    List.filter is_network (trace w')
    = List.filter is_network (trace fresh_world)
      ++ [EInitialize (datadog_api_key cfg) (datadog_app_key cfg)] /\
    In (ESignal SIGINT) (trace w') /\ In (ESignal SIGTERM) (trace w') /\
    now w' = now fresh_world /\ shutdown_flag w' = shutdown_flag fresh_world /\
    pending w' = pending fresh_world.
Proof.
  split; [vm_compute; reflexivity |].
  apply (startup_reads_environment sample_environ fresh_world).
  vm_compute. reflexivity.
Defined.

(** ** More on the loop *)

Lemma wait_phase_stop w : shutdown_flag w = true -> wait_phase w = Return tt w.
Proof. intros Hf. unfold wait_phase. now rewrite Hf. Qed.


(** X9.  When shutdown has already been requested as [main] reaches its
    loop, the loop body is never entered: after the start-up lines the
    service logs that it stopped and returns normally (exit status 0),
    having made no request and no submission. *)
Theorem shutdown_before_first_cycle net fuel environ w :
  first_missing environ = None ->
  shutdown_flag w = true ->
  exists cfg,
    main net fuel environ w
    = Some (Return tt (emit stopped_logged (initialized cfg w))) /\
    option_map exit_status (main net fuel environ w) = Some 0 /\
    requests_made (emit stopped_logged (initialized cfg w)) = requests_made w /\
    submissions (emit stopped_logged (initialized cfg w)) = submissions w.
Proof.
  intros Hfind Hf.
  destruct (startup_complete environ w Hfind) as (ok & dk & ak & z & _ & _ & _ & _ & Hrun).
  exists (Config ok dk ak z).
  assert (Hmain : main net fuel environ w
                  = Some (Return tt (emit stopped_logged (initialized (Config ok dk ak z) w)))).
  { unfold main. rewrite Hrun, main_loop_stop by exact Hf. reflexivity. }
  split; [exact Hmain |]. split; [rewrite Hmain; reflexivity |].
  unfold requests_made, submissions, initialized.
  rewrite !filter_trace_emit. simpl. now rewrite !app_nil_r.
Qed.

(** A process that was asked to stop before [main] ran. *)
Definition already_stopping : world := World 1700000000123 true [] 0 0 [].

Lemma shutdown_before_first_cycle_witness :
  first_missing sample_environ = None /\
  shutdown_flag already_stopping = true /\
  exists cfg,
    main unreachable 0 sample_environ already_stopping
    = Some (Return tt (emit stopped_logged (initialized cfg already_stopping))) /\
    option_map exit_status (main unreachable 0 sample_environ already_stopping) = Some 0 /\
    requests_made (emit stopped_logged (initialized cfg already_stopping))
    = requests_made already_stopping /\
    submissions (emit stopped_logged (initialized cfg already_stopping))
    = submissions already_stopping.
Proof.
  split; [vm_compute; reflexivity |]. split; [reflexivity |].
  apply (shutdown_before_first_cycle unreachable 0 sample_environ already_stopping).
  - vm_compute. reflexivity.
  - reflexivity.
Defined.

Definition is_warning_log (e : event) : bool :=
  match e with ELog WARNING _ _ => true | _ => false end.

Definition warning_lines (w : world) : list event :=
  List.filter is_warning_log (trace w).

Definition skipping_logged : event :=
  ELog WARNING "Skipping metric submission due to weather data fetch failure" [].

(** X10.  When [get_weather_data] returns [None], the cycle submits
    nothing, logs exactly one WARNING, goes on to the wait, and the loop
    goes on to its next iteration; if no shutdown was requested meanwhile,
    the next iteration starts at least 300 seconds after this one. *)
Theorem cycle_skips_publish_on_fetch_error net c fuel w w1 :
  shutdown_flag w = false ->
  get_weather_data net (zip_code c) (openweather_api_key c) w = Return PNone w1 ->
  exists w2,
    cycle net c w = Return tt w2 /\
    submissions w2 = submissions w /\
    sends w2 = sends w /\
    warning_lines w2 = warning_lines w1 ++ [skipping_logged] /\
    main_loop net (S fuel) c w = main_loop net fuel c w2 /\
    (shutdown_flag w2 = false -> now w + 300000 <= now w2).
Proof.
  intros Hf Hfetch.
  destruct (fetch_effects net (zip_code c) (openweather_api_key c) w)
    as (HevW & _ & Hsub & _ & _ & Hsd).
  rewrite Hfetch in HevW, Hsub, Hsd. cbn [world_of] in HevW, Hsub, Hsd.
  destruct (wait_outcomes (emit skipping_logged w1)) as (w2 & Hwait & Hev & Hlong & Hfilter).
  assert (Hcycle : cycle net c w = Return tt w2).
  { unfold cycle, bind. rewrite Hfetch, publish_none. exact Hwait. }
  exists w2. split; [exact Hcycle |].
  split; [| split; [| split; [| split]]].
  - unfold submissions in *. rewrite Hfilter by reflexivity.
    rewrite filter_trace_emit. simpl. now rewrite app_nil_r.
  - pose proof (evolves_sends _ _ Hev) as Hle. simpl in Hle.
    assert (Hge : (sends w2 <= sends w1)%nat).
    { clear - Hwait Hev. revert Hwait. unfold wait_phase.
      destruct (negb (shutdown_flag (emit skipping_logged w1))).
      - unfold bind, log. intros Hrun.
        assert (Hs : forall n w w', sleep_segments n w = Return tt w' -> sends w' = sends w).
        { induction n as [|n IH]; intros wa wb Hr.
          - simpl in Hr. now injection Hr as <-.
          - simpl in Hr. destruct (shutdown_flag wa); [now injection Hr as <- |].
            unfold bind, sleep in Hr. rewrite (IH _ _ Hr), sends_advance. reflexivity. }
        rewrite (Hs _ _ _ Hrun). simpl. lia.
      - intros Hrun. injection Hrun as <-. simpl. lia. }
    lia.
  - unfold warning_lines. rewrite Hfilter by reflexivity.
    now rewrite filter_trace_emit.
  - rewrite (main_loop_step net c fuel w Hf), Hcycle. reflexivity.
  - intros Hf2. rewrite (Hlong Hf2). simpl.
    pose proof (evolves_now _ _ HevW) as H1.
    pose proof (evolves_now _ _ (evolves_requested (zip_code c) (openweather_api_key c)
                  (fst (http_reply net (gets w))) w)) as H2.
    lia.
Qed.

Lemma cycle_skips_publish_on_fetch_error_witness :
  exists w2,
    cycle (answering 404 mild_day) sample_config fresh_world = Return tt w2 /\
    submissions w2 = submissions fresh_world /\
    sends w2 = sends fresh_world /\
    warning_lines w2 = warning_lines refused_404 ++ [skipping_logged] /\
    main_loop (answering 404 mild_day) 1 sample_config fresh_world
    = main_loop (answering 404 mild_day) 0 sample_config w2 /\
    (shutdown_flag w2 = false -> now fresh_world + 300000 <= now w2).
Proof.
  apply (cycle_skips_publish_on_fetch_error (answering 404 mild_day) sample_config 0
           fresh_world refused_404).
  - reflexivity.
  - apply (fetch_http_error (answering 404 mild_day) "10001" "secret" fresh_world
             250%N (Response 404 (Some mild_day))); reflexivity.
Defined.

(** A signal that falls due while the request is in flight has set the
    flag when the request comes back. *)
Lemma flag_requested zip key d w s :
  In s (pending w) -> s <= now w + Z.of_N d ->
  shutdown_flag (requested zip key d w) = true.
Proof.
  intros Hs Hle. unfold requested.
  apply (flag_advance_due _ _ s); [exact Hs | simpl; lia].
Qed.

(** A reading is its two values. *)
Lemma reading_inj t h t' h' : reading t h = reading t' h' -> t = t' /\ h = h'.
Proof.
  intros Hr.
  pose proof (f_equal (fun v => match v with
                                | PDict d => d !! "temperature"
                                | _ => None
                                end) Hr) as Ht.
  pose proof (f_equal (fun v => match v with
                                | PDict d => d !! "humidity"
                                | _ => None
                                end) Hr) as Hh.
  unfold reading in Ht, Hh. cbv beta iota in Ht, Hh.
  rewrite !lookup_insert_eq in Ht.
  rewrite !(lookup_insert_ne _ "temperature" "humidity") in Hh by discriminate.
  rewrite !lookup_insert_eq in Hh.
  split; congruence.
Qed.

(** X11.  A shutdown signal that arrives while the request is in flight
    does not interrupt the cycle: a reading that was fetched is still
    published; but the wait is skipped entirely (no sleep), and the loop
    ends right after this cycle. *)
Theorem shutdown_during_fetch_skips_wait net c fuel w s v w1 :
  shutdown_flag w = false ->
  In s (pending w) ->
  s <= now w + Z.of_N (fst (http_reply net (gets w))) ->
  get_weather_data net (zip_code c) (openweather_api_key c) w = Return v w1 ->
  exists w',
    cycle net c w = Return tt w' /\
    shutdown_flag w' = true /\
    sleeps w' = sleeps w /\
    main_loop net (S fuel) c w = Some (Return tt w') /\
    (forall t h, v = reading t h ->
       In (EMetricSend "environment.temperature.outside" [(now w1 ÷ 1000, t)] "gauge")
          (submissions w')).
Proof.
  intros Hf Hs Hle Hfetch.
  pose proof (flag_requested (zip_code c) (openweather_api_key c) _ w s Hs Hle) as HfW.
  destruct (fetch_effects net (zip_code c) (openweather_api_key c) w)
    as (HevW & _ & _ & Hsl & _).
  rewrite Hfetch in HevW, Hsl. cbn [world_of] in HevW, Hsl.
  pose proof (evolves_flag_set _ _ HevW HfW) as Hf1.
  assert (Hdone : forall w2,
            publish_or_skip net v (datadog_api_key c) (datadog_app_key c) w1 = Return tt w2 ->
            evolves w1 w2 -> sleeps w2 = sleeps w1 ->
            cycle net c w = Return tt w2 /\ shutdown_flag w2 = true /\
            sleeps w2 = sleeps w /\ main_loop net (S fuel) c w = Some (Return tt w2)).
  { intros w2 Hpub Hev Hsl2.
    pose proof (evolves_flag_set _ _ Hev Hf1) as Hf2.
    assert (Hcycle : cycle net c w = Return tt w2).
    { unfold cycle, bind. rewrite Hfetch, Hpub. now apply wait_phase_stop. }
    split; [exact Hcycle |]. split; [exact Hf2 |]. split; [congruence |].
    rewrite (main_loop_step net c fuel w Hf), Hcycle. now apply main_loop_stop. }
  pose proof (fetch_outcomes net (zip_code c) (openweather_api_key c) w) as Hout.
  rewrite Hfetch in Hout.
  assert (Hv : v = PNone \/ exists t h, v = reading t h)
    by (inversion Hout; subst; eauto).
  destruct Hv as [-> | (t & h & ->)].
  - destruct (Hdone (emit skipping_logged w1)) as (Hc & Hset & Hsl' & Hloop).
    + apply publish_none.
    + apply evolves_emit, evolves_refl.
    + unfold sleeps. rewrite filter_trace_emit. simpl. apply app_nil_r.
    + eexists. repeat (split; [eassumption |]).
      intros t h Hr. unfold reading in Hr. discriminate Hr.
  - destruct (publish_outcomes net t h (datadog_api_key c) (datadog_app_key c) w1)
      as (w2 & rest & Hpub & Hev & Hsubs & _ & _ & Hsl2).
    destruct (Hdone w2) as (Hc & Hset & Hsl' & Hloop);
      [rewrite publish_reading; exact Hpub | exact Hev | exact Hsl2 |].
    exists w2. repeat (split; [assumption |]).
    intros t' h' Hr.
    destruct (reading_inj _ _ _ _ Hr) as [<- _]. rewrite Hsubs. apply in_or_app. right. now left.
Qed.

(** A process about to poll, with a SIGTERM due 100 ms later. *)
Definition about_to_poll : world := World 1700000000123 false [1700000000223] 0 0 [].

Lemma shutdown_during_fetch_skips_wait_witness :
  shutdown_flag about_to_poll = false /\
  exists w',
    cycle (answering 200 mild_day) sample_config about_to_poll = Return tt w' /\
    shutdown_flag w' = true /\
    sleeps w' = sleeps about_to_poll /\
    main_loop (answering 200 mild_day) 1 sample_config about_to_poll
    = Some (Return tt w') /\
    (forall t h, reading (PFloat 21.5) (PInt 63) = reading t h ->
       In (EMetricSend "environment.temperature.outside"
             [(now (emit (received_logged (PFloat 21.5) (PInt 63))
                      (requested "10001" "secret" 250 about_to_poll)) ÷ 1000, t)]
             "gauge")
          (submissions w')).
Proof.
  split; [reflexivity |].
  apply (shutdown_during_fetch_skips_wait (answering 200 mild_day) sample_config 0
           about_to_poll 1700000000223 (reading (PFloat 21.5) (PInt 63))
           (emit (received_logged (PFloat 21.5) (PInt 63))
              (requested "10001" "secret" 250 about_to_poll))).
  - reflexivity.
  - simpl. auto.
  - vm_compute. discriminate.
  - apply (fetch_reading (answering 200 mild_day) "10001" "secret" about_to_poll
             250%N (Response 200 (Some mild_day))
             (weather_body (main_object (PFloat 21.5) (PInt 63)))
             (<["temp" := PFloat 21.5]> (<["humidity" := PInt 63]> ∅)));
      vm_compute; reflexivity.
Defined.









(** X15.  The service polls at most once every 300 seconds: when a cycle
    ends with the flag still clear, so that the loop goes on to another
    request, at least 300 seconds have passed since the cycle began. *)
Theorem polls_at_most_every_300_seconds net c fuel w w' :
  shutdown_flag w = false ->
  cycle net c w = Return tt w' ->
  shutdown_flag w' = false ->
  now w + 300000 <= now w' /\
  main_loop net (S (S fuel)) c w
  = match cycle net c w' with
    | Return _ w'' => main_loop net fuel c w''
    | Raise e w'' => Some (Raise e w'')
    end.
Proof.
  intros Hf Hc Hf'. split.
  - destruct (cycle_outcomes net c w) as [[msg Hc'] | (w1 & Hc' & _ & Hlong & _)];
      rewrite Hc in Hc'; [discriminate |].
    injection Hc' as <-. exact (Hlong Hf').
  - rewrite (main_loop_step net c (S fuel) w Hf), Hc.
    apply (main_loop_step net c fuel w' Hf').
Qed.

Lemma polls_at_most_every_300_seconds_witness :
  shutdown_flag fresh_world = false /\
  now fresh_world + 300000
  <= now (world_of (cycle (answering 200 mild_day) sample_config fresh_world)) /\
  main_loop (answering 200 mild_day) 2 sample_config fresh_world
  = match cycle (answering 200 mild_day) sample_config
            (world_of (cycle (answering 200 mild_day) sample_config fresh_world)) with
    | Return _ w'' => main_loop (answering 200 mild_day) 0 sample_config w''
    | Raise e w'' => Some (Raise e w'')
    end.
Proof.
  split; [reflexivity |].
  apply (polls_at_most_every_300_seconds (answering 200 mild_day) sample_config 0
           fresh_world
           (world_of (cycle (answering 200 mild_day) sample_config fresh_world)));
    vm_compute; reflexivity.
Defined.

(** ** Timestamps and the order of the network calls *)

(** [int(time.time())] is the whole second the clock is in. *)
Lemma whole_second (t : Z) :
  0 <= t -> 1000 * (t ÷ 1000) <= t < 1000 * (t ÷ 1000) + 1000.
Proof.
  intros Ht. pose proof (Z.quot_rem' t 1000) as Hqr.
  pose proof (Z.rem_bound_pos t 1000 Ht ltac:(lia)) as Hr. lia.
Qed.

(** X16.  The timestamps are whole seconds read from the clock at the
    moment each submission is issued: never in the future, less than one
    second old, and the one of the humidity never earlier than the one of
    the temperature. *)
Theorem timestamps_follow_the_clock net t h api_key app_key w d1 :
  0 <= now w ->
  send_reply net (sends w) = (d1, None) ->
  exists w' ts1 ts2,
    submit_datadog_metrics net t h api_key app_key w = Return tt w' /\
    submissions w'
    = submissions w
      ++ [EMetricSend "environment.temperature.outside" [(ts1, t)] "gauge";
          EMetricSend "environment.humidity.outside" [(ts2, h)] "gauge"] /\
    1000 * ts1 <= now w < 1000 * ts1 + 1000 /\
    1000 * ts2 <= now w + Z.of_N d1 < 1000 * ts2 + 1000 /\
    ts1 <= ts2.
Proof.
  intros Hnow H1. destruct (send_reply net (S (sends w))) as [d2 o2] eqn:H2.
  eexists. exists (now w ÷ 1000), ((now w + Z.of_N d1) ÷ 1000).
  split; [exact (publish_first_ok net t h api_key app_key w d1 d2 o2 H1 H2) |].
  split; [| split; [| split]].
  - unfold submissions.
    rewrite filter_trace_emit, filter_trace_submitted, filter_trace_emit,
      filter_trace_submitted by reflexivity.
    cbn [now emit]. rewrite now_submitted.
    assert (Hlast : is_metric_send
              match o2 with
              | Some e => publish_failed e
              | None => humidity_logged h
              end = false) by (destruct o2; reflexivity).
    rewrite Hlast. simpl. rewrite !app_nil_r, <- app_assoc. reflexivity.
  - now apply whole_second.
  - apply whole_second. lia.
  - apply Z.quot_le_mono; lia.
Qed.

Lemma timestamps_follow_the_clock_witness :
  0 <= now fresh_world /\
  exists w' ts1 ts2,
    submit_datadog_metrics (answering 200 mild_day) (PFloat 21.5) (PInt 63)
      "dd-api" "dd-app" fresh_world = Return tt w' /\
    submissions w'
    = submissions fresh_world
      ++ [EMetricSend "environment.temperature.outside" [(ts1, PFloat 21.5)] "gauge";
          EMetricSend "environment.humidity.outside" [(ts2, PInt 63)] "gauge"] /\
    1000 * ts1 <= now fresh_world < 1000 * ts1 + 1000 /\
    1000 * ts2 <= now fresh_world + Z.of_N 100 < 1000 * ts2 + 1000 /\
    ts1 <= ts2.
Proof.
  split; [simpl; lia |].
  apply (timestamps_follow_the_clock (answering 200 mild_day) (PFloat 21.5) (PInt 63)
           "dd-api" "dd-app" fresh_world 100%N).
  - simpl. lia.
  - reflexivity.
Defined.

Definition network_calls (w : world) : list event :=
  List.filter is_network (trace w).

Lemma network_calls_publish net t h dk ak w w' :
  submit_datadog_metrics net t h dk ak w = Return tt w' ->
  network_calls w' = network_calls w ++ skipn (length (submissions w)) (submissions w').
Proof.
  intros Hrun. unfold network_calls.
  destruct (send_reply net (sends w)) as [d1 [e|]] eqn:H1.
  - rewrite (publish_first_fails net t h dk ak w d1 e H1) in Hrun.
    injection Hrun as <-.
    rewrite submissions_emit, submissions_submitted. unfold submissions.
    rewrite filter_trace_emit, filter_trace_submitted by reflexivity.
    simpl. rewrite !app_nil_r.
    rewrite skipn_app, skipn_all, Nat.sub_diag. reflexivity.
  - destruct (send_reply net (S (sends w))) as [d2 o2] eqn:H2.
    rewrite (publish_first_ok net t h dk ak w d1 d2 o2 H1 H2) in Hrun.
    injection Hrun as <-.
    assert (Hlast : forall f : event -> bool,
              (forall lvl fmt args, f (ELog lvl fmt args) = false) ->
              f match o2 with
                | Some e => publish_failed e
                | None => humidity_logged h
                end = false) by (intros f Hf; destruct o2; apply Hf).
    unfold submissions.
    rewrite !filter_trace_emit, !filter_trace_submitted, !filter_trace_emit,
      !filter_trace_submitted by reflexivity.
    rewrite (Hlast is_network), (Hlast is_metric_send) by reflexivity.
    simpl. rewrite !app_nil_r, <- !app_assoc.
    rewrite skipn_app, skipn_all, Nat.sub_diag. reflexivity.
Qed.

(** X17.  Within a cycle the fetch precedes the publication: the network
    calls of a cycle are, in this order, the request and then the
    submissions of the publisher, at most two; there is none when the fetch
    failed (returned [None] or raised), and when it returned a dict the
    first one carries the value under [temperature]; nothing else reaches
    the network, and Datadog is not initialised again. *)
Theorem fetch_precedes_publish net c w :
  exists subs,
    network_calls (world_of (cycle net c w))
    = network_calls w
      ++ EHttpGet "https://api.openweathermap.org/data/2.5/weather"
           [("zip", zip_code c); ("appid", openweather_api_key c); ("units", "metric")]
           10
         :: subs /\
    submissions (world_of (cycle net c w)) = submissions w ++ subs /\
    (length subs <= 2)%nat /\
    (forall w1,
       get_weather_data net (zip_code c) (openweather_api_key c) w = Return PNone w1 ->
       subs = []) /\
    (forall e w1,
       get_weather_data net (zip_code c) (openweather_api_key c) w = Raise e w1 ->
       subs = []) /\
    (forall (fields : gmap string pyval) w1,
       get_weather_data net (zip_code c) (openweather_api_key c) w
       = Return (PDict fields) w1 ->
       exists t rest,
         fields !! "temperature" = Some t /\
         subs = EMetricSend "environment.temperature.outside"
                  [(now w1 ÷ 1000, t)] "gauge" :: rest).
Proof.
  set (W := requested (zip_code c) (openweather_api_key c)
              (fst (http_reply net (gets w))) w).
  assert (HW : network_calls W
               = network_calls w
                 ++ [weather_request (zip_code c) (openweather_api_key c)] /\
               submissions W = submissions w).
  { subst W. unfold network_calls, submissions.
    rewrite !filter_trace_requested by reflexivity. simpl.
    now rewrite app_nil_r. }
  destruct HW as [HnW HsW].
  unfold cycle, bind.
  destruct (fetch_outcomes net (zip_code c) (openweather_api_key c) w)
    as [e | k | t h | msg]; fold W.
  - rewrite publish_none.
    match goal with |- context [wait_phase ?w1] =>
      destruct (wait_outcomes w1) as (w' & -> & _ & _ & Hfilter) end.
    exists []. cbn [world_of]. unfold network_calls, submissions in *.
    rewrite !Hfilter by reflexivity. rewrite !filter_trace_emit. simpl.
    rewrite !app_nil_r. split; [exact HnW |]. split; [exact HsW |].
    split; [lia |]. split; [reflexivity |]. split; [reflexivity |].
    intros fields w1 Hr. discriminate Hr.
  - rewrite publish_none.
    match goal with |- context [wait_phase ?w1] =>
      destruct (wait_outcomes w1) as (w' & -> & _ & _ & Hfilter) end.
    exists []. cbn [world_of]. unfold network_calls, submissions in *.
    rewrite !Hfilter by reflexivity. rewrite !filter_trace_emit. simpl.
    rewrite !app_nil_r. split; [exact HnW |]. split; [exact HsW |].
    split; [lia |]. split; [reflexivity |]. split; [reflexivity |].
    intros fields w1 Hr. discriminate Hr.
  - rewrite publish_reading.
    match goal with |- context [submit_datadog_metrics net t h ?dk ?ak ?w1] =>
      destruct (publish_outcomes net t h dk ak w1)
        as (w2 & rest & Hpub & _ & Hsubs2 & Hrest & _ & _);
      pose proof (network_calls_publish net t h dk ak w1 w2 Hpub) as Hnet2 end.
    rewrite Hpub.
    destruct (wait_outcomes w2) as (w' & -> & _ & _ & Hfilter).
    cbn [world_of].
    rewrite Hsubs2, skipn_app, skipn_all, Nat.sub_diag in Hnet2. simpl in Hnet2.
    eexists. split; [| split; [| split; [| split; [| split]]]].
    + unfold network_calls in *. rewrite Hfilter by reflexivity.
      rewrite Hnet2, filter_trace_emit. simpl. rewrite app_nil_r, HnW, <- app_assoc.
      reflexivity.
    + unfold submissions in *. rewrite Hfilter by reflexivity.
      rewrite Hsubs2, filter_trace_emit. simpl. rewrite app_nil_r, HsW. reflexivity.
    + destruct Hrest as [-> | [ts ->]]; simpl; lia.
    + intros w1 Hr.
      apply (f_equal (fun r => match r with
                               | Return PNone _ => true
                               | _ => false
                               end)) in Hr.
      unfold reading in Hr. discriminate Hr.
    + intros e w1 Hr. discriminate Hr.
    + intros fields w1 Hr.
      pose proof (f_equal (fun r => match r with
                                    | Return (PDict d) _ => d !! "temperature"
                                    | _ => None
                                    end) Hr) as Hfield.
      pose proof (f_equal world_of Hr) as Hw1.
      unfold reading in Hfield. cbv beta iota in Hfield.
      rewrite lookup_insert_eq in Hfield. cbn [world_of] in Hw1.
      exists t, rest. split; [now symmetry |]. rewrite <- Hw1. reflexivity.
  - exists []. cbn [world_of]. rewrite app_nil_r. split; [exact HnW |].
    split; [exact HsW |]. split; [simpl; lia |].
    split; [reflexivity |]. split; [reflexivity |].
    intros fields w1 Hr. discriminate Hr.
Qed.
